(** * anaconda_lib/worker.py: worker supervision and the session registry

    A shallow embedding of [BaseWorker], [LocalWorker], [RemoteWorker] and
    [Worker] of [anaconda_lib/worker.py], and the properties of the
    specification that concern them.

    The Python objects are records, the dictionary [WORKERS] is a finite
    map, and every method is a function in a state-and-exception monad whose
    state is the receiver together with the trace of the interactions with
    the outside (sockets, processes, the editor, the RPC client).  What the
    outside answers is given by an environment of oracles; the n-th
    interaction of a kind asks the oracle of that kind at index n.  Loops
    without a bound take a fuel argument; the recursion between
    [start_json_server] and [sanitize_server] takes the depth that the
    interpreter leaves to it. *)

From Stdlib Require Import ZArith Lia Strings.Byte.
From stdpp Require Import gmap strings list pretty.

#[local] Set Warnings "-register-all".

Local Open Scope string_scope.
Local Open Scope list_scope.
Local Open Scope Z_scope.

(** ** Python values *)

(** The values that settings and attributes hold: [None], integers, strings
    and dictionaries with string keys (kept as association lists, first
    binding wins). *)
Inductive value : Type :=
| VNone
| VInt (z : Z)
| VStr (s : string)
| VDict (d : list (string * value)).

Inductive exn : Type :=
| KeyError
| AttributeError
| TypeError
| OSError
| RuntimeError
| RecursionError                 (* a RuntimeError *)
| UnicodeDecodeError.

(** Truth value of an object, as [not x] and [if x] test it. *)
Definition truthy (v : value) : bool :=
  match v with
  | VNone => false
  | VInt z => negb (z =? 0)
  | VStr s => negb (String.eqb s "")
  | VDict [] => false
  | VDict (_ :: _) => true
  end.

Definition is_none (v : value) : bool :=
  match v with VNone => true | _ => false end.

Fixpoint assoc (k : string) (d : list (string * value)) : option value :=
  match d with
  | [] => None
  | (k', v) :: d' => if String.eqb k k' then Some v else assoc k d'
  end.

(** [obj.get(k, default)]: only dictionaries have a [get] attribute. *)
Definition py_get (obj : value) (k : string) (default : value) : exn + value :=
  match obj with
  | VDict d => inr (match assoc k d with Some v => v | None => default end)
  | _ => inl AttributeError
  end.

(** [obj[k]] with a string key: [KeyError] when a dictionary lacks the key,
    [TypeError] on [None], integers and strings. *)
Definition py_getitem (obj : value) (k : string) : exn + value :=
  match obj with
  | VDict d => match assoc k d with Some v => inr v | None => inl KeyError end
  | _ => inl TypeError
  end.

(** [str(x)]; the rendering of a dictionary keeps its keys only. *)
Definition py_str (v : value) : string :=
  match v with
  | VNone => "None"
  | VInt z => pretty z
  | VStr s => s
  | VDict d => String.append "{" (String.append (String.concat ", " (map fst d)) "}")
  end.

(** The byte string [b'Ok']. *)
Definition b_Ok : list byte := [x4f; x6b].

Fixpoint bytes_eqb (a b : list byte) : bool :=
  match a, b with
  | [], [] => true
  | x :: a', y :: b' => Byte.eqb x y && bytes_eqb a' b'
  | _, _ => false
  end.

(** [bs.decode('utf8')] succeeds: [bs] is a sequence of well-formed UTF-8
    byte sequences (no overlong forms, no surrogates, nothing above
    U+10FFFF). *)
Definition in_range (lo hi : N) (b : byte) : bool :=
  ((lo <=? Byte.to_N b) && (Byte.to_N b <=? hi))%N.

Definition continuation (b : byte) : bool := in_range 128 191 b.

Definition three_bytes (b0 b1 : byte) : bool :=
  in_range 224 224 b0 && in_range 160 191 b1
  || in_range 225 236 b0 && continuation b1
  || in_range 237 237 b0 && in_range 128 159 b1
  || in_range 238 239 b0 && continuation b1.

Definition four_bytes (b0 b1 : byte) : bool :=
  in_range 240 240 b0 && in_range 144 191 b1
  || in_range 241 243 b0 && continuation b1
  || in_range 244 244 b0 && in_range 128 143 b1.

Fixpoint utf8_valid (bs : list byte) : bool :=
  match bs with
  | [] => true
  | b0 :: r0 =>
    if in_range 0 127 b0 then utf8_valid r0
    else
      match r0 with
      | [] => false
      | b1 :: r1 =>
        if in_range 194 223 b0 then continuation b1 && utf8_valid r1
        else
          match r1 with
          | [] => false
          | b2 :: r2 =>
            if three_bytes b0 b1 then continuation b2 && utf8_valid r2
            else
              match r2 with
              | [] => false
              | b3 :: r3 =>
                four_bytes b0 b1 && continuation b2 && continuation b3
                && utf8_valid r3
              end
          end
      end
  end.

(** ** Objects *)

(** A [subprocess.Popen] handle, named by the index of the spawn that made
    it. *)
Definition proc := nat.

(** An [AsynClient], named by the index of its construction, with the port
    it was constructed with (the only argument the workers pass). *)
Record client : Type := Client { client_id : nat; client_port : value }.

Inductive worker_kind : Type := LocalWorker | RemoteWorker.

(** The attributes of a worker.  [config] and [support] exist on a
    [RemoteWorker] only; [support = None] is the attribute not yet set. *)
Record worker : Type := mkWorker {
  kind : worker_kind;
  hostname : value;
  available_port : value;
  reconnecting : bool;
  last_error : option exn;
  process : option proc;
  w_client : option client;
  config : value;
  support : option bool
}.

(** [BaseWorker.__init__] *)
Definition BaseWorker_init (k : worker_kind) : worker :=
  {| kind := k;
     hostname := VStr "localhost";
     available_port := VNone;
     reconnecting := false;
     last_error := None;
     process := None;
     w_client := None;
     config := VNone;
     support := None |}.

Definition set_hostname (h : value) (w : worker) : worker :=
  {| kind := kind w; hostname := h; available_port := available_port w;
     reconnecting := reconnecting w; last_error := last_error w;
     process := process w; w_client := w_client w; config := config w;
     support := support w |}.

Definition set_available_port (p : value) (w : worker) : worker :=
  {| kind := kind w; hostname := hostname w; available_port := p;
     reconnecting := reconnecting w; last_error := last_error w;
     process := process w; w_client := w_client w; config := config w;
     support := support w |}.

Definition set_reconnecting (b : bool) (w : worker) : worker :=
  {| kind := kind w; hostname := hostname w;
     available_port := available_port w;
     reconnecting := b; last_error := last_error w;
     process := process w; w_client := w_client w; config := config w;
     support := support w |}.

Definition set_process (p : option proc) (w : worker) : worker :=
  {| kind := kind w; hostname := hostname w;
     available_port := available_port w;
     reconnecting := reconnecting w; last_error := last_error w;
     process := p; w_client := w_client w; config := config w;
     support := support w |}.

Definition set_client (c : option client) (w : worker) : worker :=
  {| kind := kind w; hostname := hostname w;
     available_port := available_port w;
     reconnecting := reconnecting w; last_error := last_error w;
     process := process w; w_client := c; config := config w;
     support := support w |}.

Definition set_config (c : value) (w : worker) : worker :=
  {| kind := kind w; hostname := hostname w;
     available_port := available_port w;
     reconnecting := reconnecting w; last_error := last_error w;
     process := process w; w_client := w_client w; config := c;
     support := support w |}.

Definition set_support (s : option bool) (w : worker) : worker :=
  {| kind := kind w; hostname := hostname w;
     available_port := available_port w;
     reconnecting := reconnecting w; last_error := last_error w;
     process := process w; w_client := w_client w; config := config w;
     support := s |}.

(** ** The outside *)

(** Outcome of the TCP connect of [server_is_active]. *)
Inductive conn_outcome : Type :=
| Connected                      (* connect and close went through *)
| Refused                        (* socket.error with errno ECONNREFUSED *)
| SocketError                    (* any other socket.error *)
| NotSocketError (e : exn).      (* an exception that is no socket.error *)

(** Outcome of the [try] block of [server_is_healthy]: an exception of any
    kind, or the decoded answer bound to [data]. *)
Inductive exch_outcome : Type :=
| ExchRaised
| ExchData (data : list byte).

(** Outcome of [create_subprocess(args)]: a handle, [None], or an
    exception. *)
Inductive spawn_outcome : Type :=
| Spawned
| SpawnNone
| SpawnRaised (e : exn).

(** The value of the [extra_paths] setting: a list of strings, a string, or
    an object with neither [extend] nor [split]. *)
Inductive paths_setting : Type :=
| PathsList (l : list string)
| PathsStr (s : string)
| PathsOther.

(** What the remote-status check reports to its callback: [(success, out,
    error)]. *)
Definition status_result : Type := bool * list byte * list byte.

(** One interaction with the outside. *)
Inductive event : Type :=
| EConnect (host port : value) (r : conn_outcome)
| EPoll (p : proc)
| EHealthCheck (host port : value)
| EAllocPort (r : option Z)
| ESpawn (args : list string)
| EKill (p : proc)
| ENewClient (c : client)
| EConnectedQuery (c : client)
| EClose (c : client)
| ESend (c : client) (callback : string) (data : list (string * value))
| EErrorMessage
| ELogError
| ELogInfo
| EVagrantStatus (directory machine : value)
| ESleep.

Definition is_connect (e : event) : bool :=
  match e with EConnect _ _ _ => true | _ => false end.
Definition is_poll (e : event) : bool :=
  match e with EPoll _ => true | _ => false end.
Definition is_health_check (e : event) : bool :=
  match e with EHealthCheck _ _ => true | _ => false end.
Definition is_alloc (e : event) : bool :=
  match e with EAllocPort _ => true | _ => false end.
Definition is_spawn (e : event) : bool :=
  match e with ESpawn _ => true | _ => false end.
Definition is_kill (e : event) : bool :=
  match e with EKill _ => true | _ => false end.
Definition is_new_client (e : event) : bool :=
  match e with ENewClient _ => true | _ => false end.
Definition is_connected_query (e : event) : bool :=
  match e with EConnectedQuery _ => true | _ => false end.
Definition is_close (e : event) : bool :=
  match e with EClose _ => true | _ => false end.
Definition is_send (e : event) : bool :=
  match e with ESend _ _ _ => true | _ => false end.

(** Number of events of a kind in a trace.  A trace is kept newest event
    first. *)
Fixpoint count (P : event -> bool) (tr : list event) : nat :=
  match tr with
  | [] => 0%nat
  | e :: tr' => ((if P e then 1 else 0) + count P tr')%nat
  end.

(** The oracles.  The last argument of an indexed oracle is the number of
    earlier interactions of the same kind. *)
Record Env : Type := mkEnv {
  os_connect : value -> value -> nat -> conn_outcome;
  os_poll : proc -> nat -> option Z;
  os_exchange : value -> value -> nat -> exch_outcome;
  os_ephemeral_port : nat -> option Z;
  os_spawn : list string -> nat -> spawn_outcome;
  rpc_connected : client -> nat -> bool;
  fs_exists : string -> bool;
  (* the iteration of the wait of check_status before which the status
     callback runs, and the result it is given; None when it never runs *)
  vagrant_status : value -> value -> option (nat * status_result);
  setting_extra_paths : paths_setting;
  window_folders : list string;
  (* the python_interpreter setting as get_settings gives it in the try
     block of build_server; None when the block raises before or in
     expanduser (no window, a setting that is no string) *)
  setting_python_interpreter : option string;
  the_project_name : string;
  the_script_file : string;
  the_pid : Z;
  (* what os.path.expanduser makes of a path that starts with ~ *)
  os_expanduser : string -> string
}.

(** ** The monad of methods *)

(** A call returns, raises, or is cut off by the fuel running out; in each
    case the state reached is kept. *)
Inductive res (S A : Type) : Type :=
| Ret (a : A) (s : S)
| Exc (e : exn) (s : S)
| Fuel (s : S).
Arguments Ret {S A} a s.
Arguments Exc {S A} e s.
Arguments Fuel {S A} s.

Definition M (S A : Type) : Type := S -> res S A.

Definition ret {S A} (a : A) : M S A := fun s => Ret a s.
Definition raise {S A} (e : exn) : M S A := fun s => Exc e s.
Definition out_of_fuel {S A} : M S A := fun s => Fuel s.

Definition bind {S A B} (m : M S A) (k : A -> M S B) : M S B :=
  fun s =>
    match m s with
    | Ret a s' => k a s'
    | Exc e s' => Exc e s'
    | Fuel s' => Fuel s'
    end.

(** [try: body except Exception as error: handler] *)
Definition try_except {S A} (body : M S A) (handler : exn -> M S A) : M S A :=
  fun s =>
    match body s with
    | Ret a s' => Ret a s'
    | Exc e s' => handler e s'
    | Fuel s' => Fuel s'
    end.

Definition lift_exn {S A} (r : exn + A) : M S A :=
  match r with
  | inl e => raise e
  | inr a => ret a
  end.

Definition final {S A} (r : res S A) : S :=
  match r with
  | Ret _ s => s
  | Exc _ s => s
  | Fuel s => s
  end.

Declare Scope py_scope.
Delimit Scope py_scope with py.
Notation "'let*' x ':=' m 'in' k" :=
  (bind m (fun x => k))
    (at level 10, x name, m at level 100, k at level 200) : py_scope.
Notation "m ';;' k" :=
  (bind m (fun _ => k))
    (at level 100, k at level 200, right associativity) : py_scope.
Local Open Scope py_scope.

(** The state of a method call: the receiver and the trace. *)
Record mstate : Type := mkState { self : worker; trace : list event }.

Definition get_self : M mstate worker := fun st => Ret (self st) st.

Definition get_count (P : event -> bool) : M mstate nat :=
  fun st => Ret (count P (trace st)) st.

Definition modify_self (f : worker -> worker) : M mstate unit :=
  fun st => Ret tt {| self := f (self st); trace := trace st |}.

Definition emit (e : event) : M mstate unit :=
  fun st => Ret tt {| self := self st; trace := e :: trace st |}.

(** The state of the module: the dictionary [WORKERS] and the trace. *)
Record gstate : Type := mkGState {
  WORKERS : gmap Z worker;
  gtrace : list event
}.

Definition get_WORKERS : M gstate (gmap Z worker) :=
  fun g => Ret (WORKERS g) g.

Definition gemit (e : event) : M gstate unit :=
  fun g => Ret tt {| WORKERS := WORKERS g; gtrace := e :: gtrace g |}.

(** [WORKERS[window_id] = w] *)
Definition store (window_id : Z) (w : worker) : M gstate unit :=
  fun g =>
    Ret tt {| WORKERS := <[window_id := w]> (WORKERS g); gtrace := gtrace g |}.

(** A constructor call [cls()]: [init] runs on a new object that
    [BaseWorker.__init__] has initialised; the object is the value of the
    call when [init] returns. *)
Definition construct (k : worker_kind) (init : M mstate unit)
  : M gstate worker :=
  fun g =>
    let keep st := {| WORKERS := WORKERS g; gtrace := trace st |} in
    match init {| self := BaseWorker_init k; trace := gtrace g |} with
    | Ret _ st => Ret (self st) (keep st)
    | Exc e st => Exc e (keep st)
    | Fuel st => Fuel (keep st)
    end.

(** [worker = WORKERS[window_id]] followed by method calls on [worker]: the
    methods change the object that the dictionary holds. *)
Definition on_worker {A} (window_id : Z) (m : M mstate A) : M gstate A :=
  fun g =>
    match WORKERS g !! window_id with
    | None => Exc KeyError g
    | Some w =>
      let keep st :=
        {| WORKERS := <[window_id := self st]> (WORKERS g);
           gtrace := trace st |} in
      match m {| self := w; trace := gtrace g |} with
      | Ret a st => Ret a (keep st)
      | Exc e st => Exc e (keep st)
      | Fuel st => Fuel (keep st)
      end
    end.

(** [s.split(',')] *)
Fixpoint split_comma (s : string) : list string :=
  match s with
  | EmptyString => [""]
  | String c s' =>
    if Ascii.eqb c (Ascii.ascii_of_nat 44) then "" :: split_comma s'
    else
      match split_comma s' with
      | [] => [String c ""]
      | x :: r => String c x :: r
      end
  end.

Section Workers.

Variable E : Env.

(** ** BaseWorker *)

(** [BaseWorker.server_is_active] *)
Definition server_is_active : M mstate bool :=
  let* w := get_self in
  let* n := get_count is_connect in
  let r := os_connect E (hostname w) (available_port w) n in
  emit (EConnect (hostname w) (available_port w) r);;
  match r with
  | Connected => ret true
  | Refused => ret false
  | SocketError => emit ELogError;; ret false
  | NotSocketError e => raise e
  end.

(** [BaseWorker.server_is_healthy] *)
Definition server_is_healthy : M mstate bool :=
  let* w := get_self in
  match process w with
  | None => raise AttributeError
  | Some p =>
    let* n := get_count is_poll in
    emit (EPoll p);;
    match os_poll E p n with
    | None =>
      let* k := get_count is_health_check in
      emit (EHealthCheck (hostname w) (available_port w));;
      match os_exchange E (hostname w) (available_port w) k with
      | ExchRaised => ret false
      | ExchData data => ret (bytes_eqb data b_Ok)
      end
    | Some _ => emit ELogError;; ret false
    end
  end.

(** [BaseWorker.start_json_server]; [sanitize_server] and [build_server] are
    the methods the subclass binds. *)
Definition start_json_server (sanitize_server build_server : M mstate unit)
  : M mstate unit :=
  let* active := server_is_active in
  if active then
    let* healthy := server_is_healthy in
    if healthy then ret tt
    else sanitize_server
  else
    emit ELogInfo;;
    build_server.

(** ** LocalWorker *)

(** The property [LocalWorker.port]: bind port 0, read the port the system
    chose, close the socket. *)
Definition LocalWorker_port : M mstate value :=
  let* n := get_count is_alloc in
  let r := os_ephemeral_port E n in
  emit (EAllocPort r);;
  match r with
  | Some p => ret (VInt p)
  | None => raise OSError
  end.

(** [AsynClient(port)] *)
Definition AsynClient (port : value) : M mstate client :=
  let* n := get_count is_new_client in
  let c := Client n port in
  emit (ENewClient c);;
  ret c.

(** [client.connected] *)
Definition client_connected (c : client) : M mstate bool :=
  let* n := get_count is_connected_query in
  emit (EConnectedQuery c);;
  ret (rpc_connected E c n).

(** [client.send_command(callback, **data)] *)
Definition send_command (c : client) (callback : string)
    (data : list (string * value)) : M mstate unit :=
  emit (ESend c callback data).

(** [os.path.expanduser(path)]: a path that does not start with [~] is
    returned as it is. *)
Definition expanduser (path : string) : string :=
  match path with
  | String c _ =>
    if Ascii.eqb c (Ascii.ascii_of_nat 126) then os_expanduser E path
    else path
  | EmptyString => path
  end.

(** [LocalWorker.build_server] *)
Definition LocalWorker_build_server : M mstate unit :=
  let* paths :=
    match setting_extra_paths E with
    | PathsList l => ret (l ++ window_folders E)
    | PathsStr s =>
      emit EErrorMessage;;
      ret (split_comma s ++ window_folders E)
    | PathsOther =>
      emit EErrorMessage;;
      raise AttributeError
    end in
  let python :=
    match setting_python_interpreter E with
    | Some s => expanduser s
    | None => "python"
    end in
  let* w := get_self in
  let args :=
    [python; "-B"; the_script_file E; "-p"; the_project_name E;
     py_str (available_port w)]
    ++ match paths with
       | [] => []
       | _ :: _ => ["-e"; String.concat "," paths]
       end
    ++ [py_str (VInt (the_pid E))] in
  let* n := get_count is_spawn in
  emit (ESpawn args);;
  match os_spawn E args n with
  | Spawned => modify_self (set_process (Some n))
  | SpawnNone => modify_self (set_process None)
  | SpawnRaised e => raise e
  end.

(** [LocalWorker.sanitize_server]; [restart] is the call of
    [self.start_json_server()] that ends it. *)
Definition LocalWorker_sanitize_server (restart : M mstate unit)
  : M mstate unit :=
  let* w := get_self in
  match w_client w with
  | None => raise AttributeError
  | Some c =>
    emit (EClose c);;
    match process w with
    | None => raise AttributeError
    | Some p =>
      emit (EKill p);;
      restart
    end
  end.

(** [start_json_server] on a [LocalWorker]: [fuel] is the depth that the
    interpreter leaves to the recursion through [sanitize_server]; beyond
    it the call raises [RecursionError]. *)
Fixpoint LocalWorker_start_json_server (fuel : nat) : M mstate unit :=
  match fuel with
  | O => raise RecursionError
  | S f =>
    start_json_server
      (LocalWorker_sanitize_server (LocalWorker_start_json_server f))
      LocalWorker_build_server
  end.

(** [while not self.server_is_active(): time.sleep(0.01)] *)
Fixpoint wait_until_active (fuel : nat) : M mstate unit :=
  match fuel with
  | O => out_of_fuel
  | S f =>
    let* active := server_is_active in
    if active then ret tt
    else emit ESleep;; wait_until_active f
  end.

(** [LocalWorker.start] *)
Definition LocalWorker_start (fuel : nat) : M mstate unit :=
  let* w := get_self in
  (if negb (truthy (available_port w)) then
     let* p := LocalWorker_port in
     modify_self (set_available_port p)
   else ret tt);;
  try_except
    (let* w := get_self in
     (if reconnecting w then
        let* p := LocalWorker_port in
        modify_self (set_available_port p)
      else ret tt);;
     LocalWorker_start_json_server fuel;;
     wait_until_active fuel;;
     let* w := get_self in
     let* c := AsynClient (available_port w) in
     modify_self (set_client (Some c)))
    (fun error => emit ELogError;; emit ELogError).

(** [LocalWorker._execute] *)
Definition LocalWorker_execute (fuel : nat) (callback : string)
    (data : list (string * value)) : M mstate unit :=
  let* w := get_self in
  match w_client w with
  | Some c =>
    let* connected := client_connected c in
    (if negb connected then
       modify_self (set_reconnecting true);;
       LocalWorker_start fuel
     else ret tt);;
    let* w := get_self in
    match w_client w with
    | Some c' => send_command c' callback data
    | None => raise AttributeError
    end
  | None => ret tt
  end.

(** ** RemoteWorker *)

(** The property [RemoteWorker.port] *)
Definition RemoteWorker_port : M mstate value :=
  let* w := get_self in
  let* network := lift_exn (py_getitem (config w) "network") in
  lift_exn (py_get network "port" (VInt 19360)).

(** [RemoteWorker.check_config] *)
Definition RemoteWorker_check_config : M mstate bool :=
  let* w := get_self in
  let* directory := lift_exn (py_get (config w) "directory" VNone) in
  let* success :=
    if negb (truthy directory) then ret false
    else
      let* network := lift_exn (py_get (config w) "network" VNone) in
      if negb (truthy network) then ret false else ret true in
  let* network := lift_exn (py_getitem (config w) "network") in
  let* mode := lift_exn (py_get network "mode" VNone) in
  let success := if is_none mode then false else success in
  let* network := lift_exn (py_getitem (config w) "network") in
  let* port := lift_exn (py_get network "port" VNone) in
  let success := if is_none port then false else success in
  (if negb success then
     emit EErrorMessage;;
     modify_self (set_support (Some false))
   else ret tt);;
  ret success.

(** The callback [status] that [check_status] hands to [VagrantStatus].
    Its assignments to [checked] bind a variable of the callback's own
    (there is no [nonlocal] declaration); the value returned here is that
    local variable on exit.  [error.decode('utf8')] is evaluated first and
    raises on bytes that are no UTF-8. *)
Definition status (result : status_result) : M mstate bool :=
  let '(success, out, error) := result in
  if negb success then
    if utf8_valid error then
      emit ELogError;;
      modify_self (set_support (Some false));;
      ret true
    else raise UnicodeDecodeError
  else
    ret true.

(** [while not checked: time.sleep(0.01)], with the callback running
    before the test of iteration [at_] when the check reports.  [checked]
    is the variable of [check_status]; what the callback binds is dropped.
    The callback runs on the thread of the status check: an exception it
    raises ends the callback and does not reach the wait. *)
Fixpoint check_status_wait (fuel : nat) (report : option (nat * status_result))
    (i : nat) (checked : bool) : M mstate unit :=
  match fuel with
  | O => out_of_fuel
  | S f =>
    match report with
    | Some (at_, result) =>
      if Nat.eqb at_ i then
        try_except (status result;; ret tt) (fun _ => ret tt)
      else ret tt
    | None => ret tt
    end;;
    if checked then ret tt
    else emit ESleep;; check_status_wait f report (S i) checked
  end.

(** [RemoteWorker.check_status] *)
Definition RemoteWorker_check_status (fuel : nat) : M mstate unit :=
  let checked := false in
  let* w := get_self in
  let* directory := lift_exn (py_getitem (config w) "directory") in
  let* machine := lift_exn (py_getitem (config w) "machine") in
  emit (EVagrantStatus directory machine);;
  check_status_wait fuel (vagrant_status E directory machine) 0 checked.

(** [RemoteWorker.__init__], on an object that [BaseWorker.__init__] has
    initialised; [check_status] is the method bound to [self.check_status]
    and [vagrant_environment] the setting of that name. *)
Definition RemoteWorker_init_with (check_status : M mstate unit)
    (vagrant_environment : value) : M mstate unit :=
  modify_self (set_config vagrant_environment);;
  RemoteWorker_check_config;;
  let* w := get_self in
  let* network := lift_exn (py_getitem (config w) "network") in
  let* address := lift_exn (py_get network "address" VNone) in
  modify_self (set_hostname address);;
  let* p := RemoteWorker_port in
  modify_self (set_available_port p);;
  check_status;;
  modify_self (set_support (Some true)).

Definition RemoteWorker_init (fuel : nat) (vagrant_environment : value)
  : M mstate unit :=
  RemoteWorker_init_with (RemoteWorker_check_status fuel) vagrant_environment.

(** The loop of [RemoteWorker.start]; [true] when the loop ends by its
    condition, [false] when it is left by [return]. *)
Fixpoint RemoteWorker_wait (fuel : nat) : M mstate bool :=
  match fuel with
  | O => out_of_fuel
  | S f =>
    let* active := server_is_active in
    if active then ret true
    else
      let* w := get_self in
      match support w with
      | None => raise AttributeError
      | Some true => emit ESleep;; RemoteWorker_wait f
      | Some false => ret false
      end
  end.

(** [RemoteWorker.start] *)
Definition RemoteWorker_start (fuel : nat) : M mstate unit :=
  let* w := get_self in
  match support w with
  | None => raise AttributeError
  | Some false =>
    emit EErrorMessage;;
    modify_self (set_support (Some false))
  | Some true =>
    let* directory := lift_exn (py_getitem (config w) "directory") in
    match directory with
    | VStr d =>
      if negb (fs_exists E d) then emit EErrorMessage
      else
        let* ended := RemoteWorker_wait fuel in
        if ended then
          let* w := get_self in
          let* c := AsynClient (available_port w) in
          modify_self (set_client (Some c))
        else ret tt
    | _ => raise TypeError
    end
  end.

(** ** Worker: the registry *)

(** [worker.start()], dispatched on the class of the worker. *)
Definition Worker_start (fuel : nat) : M mstate unit :=
  let* w := get_self in
  match kind w with
  | LocalWorker => LocalWorker_start fuel
  | RemoteWorker => RemoteWorker_start fuel
  end.

(** [Worker.vagrant_is_active] *)
Definition vagrant_is_active (vagrant_environment : value) : bool :=
  negb (is_none vagrant_environment).

(** [Worker.execute]; [window_id] is [sublime.active_window().id()] and
    [vagrant_environment] the setting of that name of the active view.  The
    [print] of the client leaves no event. *)
Definition Worker_execute (fuel : nat) (window_id : Z)
    (vagrant_environment : value) (callback : string)
    (data : list (string * value)) : M gstate unit :=
  let* ws := get_WORKERS in
  match ws !! window_id with
  | None =>
    try_except
      (if vagrant_is_active vagrant_environment then
         let* w := construct RemoteWorker
                     (RemoteWorker_init fuel vagrant_environment) in
         store window_id w
       else
         let* w := construct LocalWorker (ret tt) in
         store window_id w)
      (fun error => gemit ELogError;; gemit ELogError)
  | Some _ => ret tt
  end;;
  on_worker window_id
    (let* worker := get_self in
     match w_client worker with
     | Some c =>
       let* connected := client_connected c in
       if negb connected then
         modify_self (set_reconnecting true);;
         Worker_start fuel
       else send_command c callback data
     | None => Worker_start fuel
     end).

End Workers.

(** ** Vocabulary of the properties *)

(** [stable R m]: whatever way a call of [m] ends, the state it ends in is
    related by [R] to the state it started in. *)
Definition stable {S A} (R : S -> S -> Prop) (m : M S A) : Prop :=
  forall s, R s (final (m s)).

(** The identity of a worker is kept: its class, host name, port and
    [reconnecting] flag are as before, and no port was allocated. *)
Definition same_identity (st st' : mstate) : Prop :=
  kind (self st') = kind (self st) /\
  hostname (self st') = hostname (self st) /\
  available_port (self st') = available_port (self st) /\
  reconnecting (self st') = reconnecting (self st) /\
  count is_alloc (trace st') = count is_alloc (trace st).


(** The same for every worker that [WORKERS] holds. *)
Definition registry_keeps_reconnecting (g g' : gstate) : Prop :=
  forall (id : Z) (w : worker),
    WORKERS g !! id = Some w ->
    reconnecting w = true ->
    exists w', WORKERS g' !! id = Some w' /\ reconnecting w' = true.

(** [start()] called again and again on a [LocalWorker], one fuel per
    call; the state after the last call. *)
Fixpoint LocalWorker_starts (E : Env) (fuels : list nat) (st : mstate)
  : mstate :=
  match fuels with
  | [] => st
  | fuel :: fuels' =>
    LocalWorker_starts E fuels' (final (LocalWorker_start E fuel st))
  end.

(** A step that leaves the host name, the port, the flag and the client
    of the worker alone, and neither connects, constructs a client nor
    sends. *)
Definition quiet (st st' : mstate) : Prop :=
  same_identity st st' /\
  w_client (self st') = w_client (self st) /\
  count is_connect (trace st') = count is_connect (trace st) /\
  count is_new_client (trace st') = count is_new_client (trace st) /\
  count is_send (trace st') = count is_send (trace st).

(** The trace [tr'] is the trace [tr] with later events on top. *)
Definition extends (tr tr' : list event) : Prop :=
  exists l, tr' = l ++ tr.

(** [server_is_active] returns [False] on these outcomes. *)
Definition not_reachable (r : conn_outcome) : bool :=
  match r with
  | Refused | SocketError => true
  | Connected | NotSocketError _ => false
  end.

(** The trace after [k] iterations of the polling loop that found the
    connection refused. *)
Fixpoint polled (host port : value) (k : nat) (tr : list event)
  : list event :=
  match k with
  | O => tr
  | S k' => polled host port k' (ESleep :: EConnect host port Refused :: tr)
  end.

(** ** Scenarios *)

(** The local scenario: the system gives the ports 54321, 54322, ...; the
    first four connections (the probe of [start_json_server] and three
    iterations of the polling loop) are refused and the later ones go
    through; the server process runs and answers [b'Ok']; no remote status
    check reports. *)
Definition local_env : Env :=
  {| os_connect :=
       fun _ _ n => default Connected ([Refused; Refused; Refused; Refused] !! n);
     os_poll := fun _ _ => None;
     os_exchange := fun _ _ _ => ExchData b_Ok;
     os_ephemeral_port := fun n => Some (54321 + Z.of_nat n);
     os_spawn := fun _ _ => Spawned;
     rpc_connected := fun _ _ => true;
     fs_exists := fun _ => true;
     vagrant_status := fun _ _ => None;
     setting_extra_paths := PathsList [];
     window_folders := ["/work/proj"];
     setting_python_interpreter := Some "python3";
     the_project_name := "proj";
     the_script_file := "anaconda_server/jsonserver.py";
     the_pid := 4242;
     os_expanduser :=
       fun path =>
         match path with
         | String _ rest => String.append "/root" rest
         | EmptyString => path
         end |}.

(** An environment with its connections following [script] (and going
    through once the script is over). *)
Definition with_connect (script : list conn_outcome) (E : Env) : Env :=
  mkEnv (fun _ _ n => default Connected (script !! n))
    (os_poll E) (os_exchange E) (os_ephemeral_port E) (os_spawn E)
    (rpc_connected E) (fs_exists E) (vagrant_status E)
    (setting_extra_paths E) (window_folders E)
    (setting_python_interpreter E) (the_project_name E) (the_script_file E)
    (the_pid E) (os_expanduser E).

(** An environment whose processes have exited with [code]. *)
Definition with_exit_code (code : Z) (E : Env) : Env :=
  mkEnv (os_connect E) (fun _ _ => Some code)
    (os_exchange E) (os_ephemeral_port E) (os_spawn E)
    (rpc_connected E) (fs_exists E) (vagrant_status E)
    (setting_extra_paths E) (window_folders E)
    (setting_python_interpreter E) (the_project_name E) (the_script_file E)
    (the_pid E) (os_expanduser E).

(** An environment whose health exchanges end in [answer]. *)
Definition with_exchange (answer : exch_outcome) (E : Env) : Env :=
  mkEnv (os_connect E) (os_poll E) (fun _ _ _ => answer)
    (os_ephemeral_port E) (os_spawn E)
    (rpc_connected E) (fs_exists E) (vagrant_status E)
    (setting_extra_paths E) (window_folders E)
    (setting_python_interpreter E) (the_project_name E) (the_script_file E)
    (the_pid E) (os_expanduser E).

(** An environment whose remote status check reports [result] before
    iteration [at_] of the wait of [check_status]. *)
Definition with_status (at_ : nat) (result : status_result) (E : Env) : Env :=
  mkEnv (os_connect E) (os_poll E) (os_exchange E) (os_ephemeral_port E)
    (os_spawn E) (rpc_connected E) (fs_exists E)
    (fun _ _ => Some (at_, result))
    (setting_extra_paths E) (window_folders E)
    (setting_python_interpreter E) (the_project_name E) (the_script_file E)
    (the_pid E) (os_expanduser E).

(** [(False, b'', b'vagrant not running')] and [(True, b'', b'')] *)
Definition status_failure : status_result :=
  (false, [], String.list_byte_of_string "vagrant not running").
Definition status_success : status_result := (true, [], []).

(** The local scenario in which the connection after the first five is
    refused: the endpoint is gone once the server is killed. *)
Definition respawn_env : Env :=
  with_connect [Refused; Refused; Refused; Refused; Connected; Refused]
    local_env.

Definition empty_registry : gstate := {| WORKERS := ∅; gtrace := [] |}.

Definition lint_data : list (string * value) := [("method", VStr "lint")].

(** The remote configuration of the scenario, the same without
    [network.port], and one without [network]. *)
Definition remote_config : value :=
  VDict [("directory", VStr "/work/proj");
         ("network", VDict [("address", VStr "10.0.0.5");
                            ("port", VInt 19360);
                            ("mode", VStr "nat")]);
         ("machine", VStr "default")].

Definition remote_config_no_port : value :=
  VDict [("directory", VStr "/work/proj");
         ("network", VDict [("address", VStr "10.0.0.5");
                            ("mode", VStr "nat")]);
         ("machine", VStr "default")].

Definition remote_config_no_network : value :=
  VDict [("directory", VStr "/work/proj")].

(** A new object of a class, before the rest of its constructor. *)
Definition new_object (k : worker_kind) : mstate :=
  {| self := BaseWorker_init k; trace := [] |}.

(** The [LocalWorker] of the local scenario after its first [start()], and
    the same worker with [reconnecting] set. *)
Definition started_worker : mstate :=
  final (LocalWorker_start local_env 5 (new_object LocalWorker)).

Definition reconnecting_worker : mstate :=
  {| self := set_reconnecting true (self started_worker);
     trace := trace started_worker |}.

(** ** Footprints *)

(** [adds A st st']: the trace of [st'] is the trace of [st] with events on
    top that all satisfy [A]. *)
Definition adds (A : event -> bool) (st st' : mstate) : Prop :=
  exists l, trace st' = l ++ trace st /\ forallb A l = true.

(** The events of [LocalWorker.start]: everything but sending a command,
    asking a client whether it is connected, and the remote status check. *)
Definition local_start_event (e : event) : bool :=
  match e with
  | ESend _ _ _ | EConnectedQuery _ | EVagrantStatus _ _ => false
  | _ => true
  end.

(** The events of [RemoteWorker.start]: connections, their log lines, the
    sleeps of the loop, the error dialog and the construction of the
    client. *)
Definition remote_start_event (e : event) : bool :=
  match e with
  | EConnect _ _ _ | ELogError | ESleep | EErrorMessage | ENewClient _ => true
  | _ => false
  end.

(** The events of the constructor of [RemoteWorker]. *)
Definition remote_init_event (e : event) : bool :=
  match e with
  | EErrorMessage | EVagrantStatus _ _ | ESleep | ELogError => true
  | _ => false
  end.

(** The class of the worker is kept. *)
Definition same_kind (st st' : mstate) : Prop :=
  kind (self st') = kind (self st).

(** The [RemoteWorker] of the scenario as its constructor would leave it if
    [check_status] returned. *)
Definition remote_worker : mstate :=
  final (RemoteWorker_init_with (ret tt) remote_config
           (new_object RemoteWorker)).

(** The events of [LocalWorker.build_server]. *)
Definition build_event (e : event) : bool :=
  match e with
  | ESpawn _ | EErrorMessage => true
  | _ => false
  end.

(** A computation that never returns: it raises or runs out of fuel. *)
Definition no_Ret {S A} (m : M S A) : Prop :=
  forall s, match m s with Ret _ _ => False | Exc _ _ | Fuel _ => True end.

(** The statements of [Worker.execute] that follow
    [worker = WORKERS[window_id]], as a method of that worker. *)
Definition execute_on_worker (E : Env) (fuel : nat) (callback : string)
    (data : list (string * value)) : M mstate unit :=
  let* worker := get_self in
  match w_client worker with
  | Some c =>
    let* connected := client_connected E c in
    if negb connected then
      modify_self (set_reconnecting true);;
      Worker_start E fuel
    else send_command c callback data
  | None => Worker_start E fuel
  end.

(** More environments of the scenarios: every connection answered by [r];
    clients that report [connected]; directories that exist or not; the
    [extra_paths] setting and the folders of the window; the
    [python_interpreter] setting. *)
Definition with_connect_all (r : conn_outcome) (E : Env) : Env :=
  mkEnv (fun _ _ _ => r)
    (os_poll E) (os_exchange E) (os_ephemeral_port E) (os_spawn E)
    (rpc_connected E) (fs_exists E) (vagrant_status E)
    (setting_extra_paths E) (window_folders E)
    (setting_python_interpreter E) (the_project_name E) (the_script_file E)
    (the_pid E) (os_expanduser E).

Definition with_rpc_connected (connected : bool) (E : Env) : Env :=
  mkEnv (os_connect E) (os_poll E) (os_exchange E) (os_ephemeral_port E)
    (os_spawn E) (fun _ _ => connected) (fs_exists E) (vagrant_status E)
    (setting_extra_paths E) (window_folders E)
    (setting_python_interpreter E) (the_project_name E) (the_script_file E)
    (the_pid E) (os_expanduser E).

Definition with_fs_exists (exists_ : bool) (E : Env) : Env :=
  mkEnv (os_connect E) (os_poll E) (os_exchange E) (os_ephemeral_port E)
    (os_spawn E) (rpc_connected E) (fun _ => exists_) (vagrant_status E)
    (setting_extra_paths E) (window_folders E)
    (setting_python_interpreter E) (the_project_name E) (the_script_file E)
    (the_pid E) (os_expanduser E).

Definition with_paths (paths : paths_setting) (folders : list string)
    (E : Env) : Env :=
  mkEnv (os_connect E) (os_poll E) (os_exchange E) (os_ephemeral_port E)
    (os_spawn E) (rpc_connected E) (fs_exists E) (vagrant_status E)
    paths folders
    (setting_python_interpreter E) (the_project_name E) (the_script_file E)
    (the_pid E) (os_expanduser E).

Definition with_python (setting : option string) (E : Env) : Env :=
  mkEnv (os_connect E) (os_poll E) (os_exchange E) (os_ephemeral_port E)
    (os_spawn E) (rpc_connected E) (fs_exists E) (vagrant_status E)
    (setting_extra_paths E) (window_folders E)
    setting (the_project_name E) (the_script_file E)
    (the_pid E) (os_expanduser E).

(** A new [RemoteWorker] object that holds [cfg] as its configuration. *)
Definition configured (cfg : value) : mstate :=
  {| self := set_config cfg (BaseWorker_init RemoteWorker); trace := [] |}.

(** The registry of the local scenario after the first call of
    [execute]. *)
Definition registered : gstate :=
  final (Worker_execute local_env 5 7 VNone "lint" lint_data empty_registry).

(** * Properties *)

(** ** Equations of the monad *)

Section MonadFacts.

Context {S : Type}.

Lemma bind_ret {A B} (a : A) (k : A -> M S B) (s : S) :
  bind (ret a) k s = k a s.
Proof. reflexivity. Qed.

Lemma bind_raise {A B} (e : exn) (k : A -> M S B) (s : S) :
  bind (raise e) k s = Exc e s.
Proof. reflexivity. Qed.

Lemma bind_assoc {A B C} (m : M S A) (k : A -> M S B) (h : B -> M S C)
    (s : S) :
  bind (bind m k) h s = bind m (fun a => bind (k a) h) s.
Proof. unfold bind. destruct (m s); reflexivity. Qed.

Lemma bind_Ret {A B} (m : M S A) (k : A -> M S B) (s s' : S) (a : A) :
  m s = Ret a s' -> bind m k s = k a s'.
Proof. unfold bind. intros ->. reflexivity. Qed.

Lemma bind_Exc {A B} (m : M S A) (k : A -> M S B) (s s' : S) (e : exn) :
  m s = Exc e s' -> bind m k s = Exc e s'.
Proof. unfold bind. intros ->. reflexivity. Qed.

Lemma bind_Fuel {A B} (m : M S A) (k : A -> M S B) (s s' : S) :
  m s = Fuel s' -> bind m k s = Fuel s'.
Proof. unfold bind. intros ->. reflexivity. Qed.

Lemma try_except_Ret {A} (m : M S A) (h : exn -> M S A) (s s' : S) (a : A) :
  m s = Ret a s' -> try_except m h s = Ret a s'.
Proof. unfold try_except. intros ->. reflexivity. Qed.

Lemma try_except_Exc {A} (m : M S A) (h : exn -> M S A) (s s' : S) (e : exn) :
  m s = Exc e s' -> try_except m h s = h e s'.
Proof. unfold try_except. intros ->. reflexivity. Qed.

(** *** Relations between the state before and the state after *)

Variable R : S -> S -> Prop.
Hypothesis R_refl : forall s, R s s.
Hypothesis R_trans : forall s1 s2 s3, R s1 s2 -> R s2 s3 -> R s1 s3.

Lemma stable_ret {A} (a : A) : stable R (ret a).
Proof. intros s. apply R_refl. Qed.

Lemma stable_raise {A} (e : exn) : stable R (@raise S A e).
Proof. intros s. apply R_refl. Qed.

Lemma stable_out_of_fuel {A} : stable R (@out_of_fuel S A).
Proof. intros s. apply R_refl. Qed.

Lemma stable_lift_exn {A} (r : exn + A) : stable R (lift_exn r).
Proof. destruct r; intros s; apply R_refl. Qed.

Lemma stable_bind {A B} (m : M S A) (k : A -> M S B) :
  stable R m -> (forall a, stable R (k a)) -> stable R (bind m k).
Proof.
  intros Hm Hk s. unfold bind. specialize (Hm s).
  destruct (m s) as [a s'|e s'|s']; simpl in *; auto.
  eapply R_trans; [exact Hm|apply Hk].
Qed.


Lemma stable_try_except {A} (m : M S A) (h : exn -> M S A) :
  stable R m -> (forall e, stable R (h e)) -> stable R (try_except m h).
Proof.
  intros Hm Hh s. unfold try_except. specialize (Hm s).
  destruct (m s) as [a s'|e s'|s']; simpl in *; auto.
  eapply R_trans; [exact Hm|apply Hh].
Qed.

End MonadFacts.

Lemma count_app (P : event -> bool) (t1 t2 : list event) :
  count P (t1 ++ t2) = (count P t1 + count P t2)%nat.
Proof. induction t1 as [|e t1 IH]; simpl; [reflexivity|rewrite IH; lia]. Qed.

Lemma bytes_eqb_eq (a b : list byte) : bytes_eqb a b = true <-> a = b.
Proof.
  revert b. induction a as [|x a IH]; intros [|y b]; simpl; split;
    try congruence; try reflexivity.
  - intros [Hxy Hab]%andb_prop. apply Byte.byte_dec_bl in Hxy.
    apply IH in Hab. congruence.
  - intros [= -> ->]. rewrite Byte.byte_dec_lb by reflexivity.
    simpl. apply IH. reflexivity.
Qed.

(** ** Methods that keep a relation *)

Section Core.

Variable E : Env.
Variable R : mstate -> mstate -> Prop.
Hypothesis R_refl : forall s, R s s.
Hypothesis R_trans : forall s1 s2 s3, R s1 s2 -> R s2 s3 -> R s1 s3.
Hypothesis R_emit : forall e, is_alloc e = false -> stable R (emit e).
Hypothesis R_process : forall p, stable R (modify_self (set_process p)).
Hypothesis R_client : forall c, stable R (modify_self (set_client c)).
Hypothesis R_support : forall b, stable R (modify_self (set_support b)).

Lemma stable_get_self : stable R get_self.
Proof. intros s. apply R_refl. Qed.

Lemma stable_get_count (P : event -> bool) : stable R (get_count P).
Proof. intros s. apply R_refl. Qed.

Ltac stable_tac :=
  repeat first
    [ assumption
    | solve [auto]
    | reflexivity
    | progress intros
    | apply stable_get_self
    | apply stable_get_count
    | apply stable_ret
    | apply stable_raise
    | apply stable_out_of_fuel
    | apply stable_lift_exn
    | apply R_emit
    | apply R_process
    | apply R_client
    | apply R_support
    | apply stable_bind
    | apply stable_try_except
    | match goal with
      | |- stable _ (match ?x with _ => _ end) => destruct x
      | |- stable _ (let _ := _ in _) => cbv zeta
      end ].

Lemma stable_server_is_active : stable R (server_is_active E).
Proof. unfold server_is_active. stable_tac. Qed.

Lemma stable_server_is_healthy : stable R (server_is_healthy E).
Proof. unfold server_is_healthy. stable_tac. Qed.

Lemma stable_start_json_server (sanitize build : M mstate unit) :
  stable R sanitize -> stable R build ->
  stable R (start_json_server E sanitize build).
Proof.
  intros Hs Hb. unfold start_json_server.
  pose proof stable_server_is_active. pose proof stable_server_is_healthy.
  stable_tac.
Qed.

Lemma stable_AsynClient (port : value) : stable R (AsynClient port).
Proof. unfold AsynClient. stable_tac. Qed.

Lemma stable_client_connected (c : client) : stable R (client_connected E c).
Proof. unfold client_connected. stable_tac. Qed.

Lemma stable_send_command c callback data :
  stable R (send_command c callback data).
Proof. unfold send_command. stable_tac. Qed.

Lemma stable_build_server : stable R (LocalWorker_build_server E).
Proof. unfold LocalWorker_build_server. stable_tac. Qed.

Lemma stable_sanitize_server (restart : M mstate unit) :
  stable R restart -> stable R (LocalWorker_sanitize_server restart).
Proof. intros Hr. unfold LocalWorker_sanitize_server. stable_tac. Qed.

Lemma stable_LocalWorker_start_json_server (fuel : nat) :
  stable R (LocalWorker_start_json_server E fuel).
Proof.
  induction fuel as [|f IH]; simpl.
  - apply stable_raise. exact R_refl.
  - apply stable_start_json_server.
    + apply stable_sanitize_server. exact IH.
    + apply stable_build_server.
Qed.

Lemma stable_wait_until_active (fuel : nat) :
  stable R (wait_until_active E fuel).
Proof.
  pose proof stable_server_is_active.
  induction fuel as [|f IH]; simpl; stable_tac.
Qed.

Lemma stable_RemoteWorker_wait (fuel : nat) :
  stable R (RemoteWorker_wait E fuel).
Proof.
  pose proof stable_server_is_active.
  induction fuel as [|f IH]; simpl; stable_tac.
Qed.

Lemma stable_RemoteWorker_start (fuel : nat) :
  stable R (RemoteWorker_start E fuel).
Proof.
  pose proof (stable_RemoteWorker_wait fuel).
  pose proof stable_AsynClient.
  unfold RemoteWorker_start. stable_tac.
Qed.

Lemma stable_status (result : status_result) : stable R (status result).
Proof. destruct result as [[success out] error]. simpl. stable_tac. Qed.

Lemma stable_check_status_wait fuel report i checked :
  stable R (check_status_wait fuel report i checked).
Proof.
  pose proof stable_status.
  revert i. induction fuel as [|f IH]; intros i; simpl; stable_tac.
Qed.

End Core.

(** *** The identity of a worker *)

Lemma same_identity_refl st : same_identity st st.
Proof. unfold same_identity. tauto. Qed.

Lemma same_identity_trans st1 st2 st3 :
  same_identity st1 st2 -> same_identity st2 st3 -> same_identity st1 st3.
Proof. unfold same_identity. intuition congruence. Qed.

Lemma same_identity_emit e : is_alloc e = false -> stable same_identity (emit e).
Proof.
  intros He st. unfold same_identity. simpl. rewrite He. tauto.
Qed.

Lemma same_identity_set_process p :
  stable same_identity (modify_self (set_process p)).
Proof. intros st. unfold same_identity. simpl. tauto. Qed.

Lemma same_identity_set_client c :
  stable same_identity (modify_self (set_client c)).
Proof. intros st. unfold same_identity. simpl. tauto. Qed.

Lemma same_identity_set_support b :
  stable same_identity (modify_self (set_support b)).
Proof. intros st. unfold same_identity. simpl. tauto. Qed.

Ltac identity_side :=
  first
    [ exact same_identity_refl
    | exact same_identity_trans
    | exact same_identity_emit
    | exact same_identity_set_process
    | exact same_identity_set_client
    | exact same_identity_set_support
    | apply same_identity_emit; reflexivity
    | apply same_identity_set_process
    | apply same_identity_set_client
    | apply same_identity_set_support ].

(** *** The [reconnecting] flag *)






(** Goals [stable R m] by the structure of [m]; [side] proves what is
    asked of [R]. *)
Ltac stable_by side :=
  repeat first
    [ side
    | assumption
    | progress intros
    | apply stable_get_self
    | apply stable_get_count
    | apply stable_ret
    | apply stable_raise
    | apply stable_out_of_fuel
    | apply stable_lift_exn
    | apply stable_server_is_active
    | apply stable_server_is_healthy
    | apply stable_AsynClient
    | apply stable_client_connected
    | apply stable_send_command
    | apply stable_build_server
    | apply stable_LocalWorker_start_json_server
    | apply stable_wait_until_active
    | apply stable_RemoteWorker_wait
    | apply stable_RemoteWorker_start
    | apply stable_status
    | apply stable_check_status_wait
    | apply stable_bind
    | apply stable_try_except
    | match goal with
      | |- stable _ (match ?x with _ => _ end) => destruct x
      | |- stable _ (let _ := _ in _) => cbv zeta
      end ].

(** ** start_json_server *)

(** C6. [start_json_server] goes by the answers of [server_is_active] and
    [server_is_healthy]: active and healthy, it returns at once in the state
    the two checks leave, whatever [sanitize_server] and [build_server] are;
    active and not healthy, the call is the call of [sanitize_server] in
    that state, whatever [build_server] is; not active, the call is the call
    of [build_server] (after the log line), whatever [sanitize_server]
    is. *)
Theorem start_json_server_ordering (E : Env)
    (sanitize_server build_server : M mstate unit) (st st1 st2 : mstate) :
  (server_is_active E st = Ret true st1 ->
   server_is_healthy E st1 = Ret true st2 ->
   start_json_server E sanitize_server build_server st = Ret tt st2) /\
  (server_is_active E st = Ret true st1 ->
   server_is_healthy E st1 = Ret false st2 ->
   start_json_server E sanitize_server build_server st
   = sanitize_server st2) /\
  (server_is_active E st = Ret false st1 ->
   start_json_server E sanitize_server build_server st
   = build_server {| self := self st1; trace := ELogInfo :: trace st1 |}).
Proof.
  unfold start_json_server. repeat split.
  - intros Ha Hh. rewrite (bind_Ret _ _ _ _ _ Ha).
    rewrite (bind_Ret _ _ _ _ _ Hh). reflexivity.
  - intros Ha Hh. rewrite (bind_Ret _ _ _ _ _ Ha).
    rewrite (bind_Ret _ _ _ _ _ Hh). reflexivity.
  - intros Ha. rewrite (bind_Ret _ _ _ _ _ Ha). reflexivity.
Qed.

(** ** server_is_healthy *)

(** C7. On a worker that holds a process handle: when [poll] reports the
    process running, [server_is_healthy] returns, and it returns [True]
    exactly when the exchange yields the bytes [b'Ok'] (an exception, a
    timeout or another payload gives [False]); when [poll] reports an exit
    code, it returns [False] and no exchange is attempted. *)
Theorem server_is_healthy_exact (E : Env) (st : mstate) (p : proc) :
  process (self st) = Some p ->
  let polled := os_poll E p (count is_poll (trace st)) in
  let answer :=
    os_exchange E (hostname (self st)) (available_port (self st))
      (count is_health_check (trace st)) in
  (polled = None ->
   exists b st',
     server_is_healthy E st = Ret b st' /\
     (b = true <-> answer = ExchData b_Ok)) /\
  (polled <> None ->
   exists st',
     server_is_healthy E st = Ret false st' /\
     count is_health_check (trace st') = count is_health_check (trace st)).
Proof.
  intros Hp polled answer. subst polled answer.
  unfold server_is_healthy, bind, get_self, get_count, emit, ret. rewrite Hp.
  simpl. split.
  - intros ->.
    destruct (os_exchange E _ _ _) as [|data] eqn:Hx.
    + eexists _, _. split; [reflexivity|]. split; discriminate.
    + eexists _, _. split; [reflexivity|]. rewrite bytes_eqb_eq.
      split; [intros ->; reflexivity|intros [= ->]; reflexivity].
  - intros Hpoll. destruct (os_poll E p _); [|contradiction].
    eexists. split; reflexivity.
Qed.

(** ** LocalWorker.start and the port *)

Lemma bind_get_self {B} (k : worker -> M mstate B) (st : mstate) :
  bind get_self k st = k (self st) st.
Proof. reflexivity. Qed.

Lemma bind_get_count {B} (P : event -> bool) (k : nat -> M mstate B)
    (st : mstate) :
  bind (get_count P) k st = k (count P (trace st)) st.
Proof. reflexivity. Qed.

Lemma try_get_self {A} (k : worker -> M mstate A) (h : exn -> M mstate A)
    (st : mstate) :
  try_except (bind get_self k) h st = try_except (k (self st)) h st.
Proof. reflexivity. Qed.

Lemma try_bind_ret {S A B} (a : A) (k : A -> M S B) (h : exn -> M S B)
    (s : S) :
  try_except (bind (ret a) k) h s = try_except (k a) h s.
Proof. reflexivity. Qed.

(** The statements of [LocalWorker.start] that follow the port
    allocations keep the identity of the worker. *)
Lemma same_identity_start_rest (E : Env) (fuel : nat) :
  stable same_identity
    (LocalWorker_start_json_server E fuel;;
     wait_until_active E fuel;;
     let* w := get_self in
     let* c := AsynClient (available_port w) in
     modify_self (set_client (Some c))).
Proof. stable_by identity_side. Qed.

Lemma same_identity_log_twice (error : exn) :
  stable same_identity (emit ELogError;; emit ELogError).
Proof. stable_by identity_side. Qed.

(** One call of [start()] with a port assigned and [reconnecting] false. *)
Lemma LocalWorker_start_same_identity (E : Env) (fuel : nat) (st : mstate) :
  truthy (available_port (self st)) = true ->
  reconnecting (self st) = false ->
  same_identity st (final (LocalWorker_start E fuel st)).
Proof.
  intros Hport Hrec. unfold LocalWorker_start.
  rewrite bind_get_self, Hport. simpl negb. cbv iota. rewrite bind_ret.
  rewrite try_get_self, Hrec. cbv iota. rewrite try_bind_ret.
  apply (stable_try_except same_identity); try identity_side.
  - apply same_identity_start_rest.
  - apply same_identity_log_twice.
Qed.

(** One call of [start()] with [reconnecting] set, from the allocation
    inside the [try] on: [st] is the state in which that allocation is
    made. *)
Lemma LocalWorker_start_reallocates (E : Env) (fuel : nat) (st : mstate)
    (p : Z) :
  reconnecting (self st) = true ->
  os_ephemeral_port E (count is_alloc (trace st)) = Some p ->
  let body :=
    (let* w := get_self in
     (if reconnecting w then
        let* p := LocalWorker_port E in
        modify_self (set_available_port p)
      else ret tt);;
     LocalWorker_start_json_server E fuel;;
     wait_until_active E fuel;;
     let* w := get_self in
     let* c := AsynClient (available_port w) in
     modify_self (set_client (Some c))) in
  let st' :=
    final (try_except body (fun error => emit ELogError;; emit ELogError) st) in
  available_port (self st') = VInt p /\
  reconnecting (self st') = true /\
  count is_alloc (trace st') = S (count is_alloc (trace st)).
Proof.
  intros Hrec Halloc body st'. subst body st'.
  rewrite try_get_self, Hrec. cbv iota.
  set (st1 := {| self := set_available_port (VInt p) (self st);
                 trace := EAllocPort (Some p) :: trace st |}).
  set (rest := bind (LocalWorker_start_json_server E fuel) _).
  set (h := fun error : exn => _).
  assert (Hst1 : same_identity st1 (final (try_except rest h st1))).
  { apply (stable_try_except same_identity); try identity_side.
    - apply same_identity_start_rest.
    - apply same_identity_log_twice. }
  assert (Heq : forall k : unit -> M mstate unit,
    try_except
      (bind (let* p := LocalWorker_port E in
             modify_self (set_available_port p)) k) h st
    = try_except (k tt) h st1).
  { intros k.
    cbv [try_except bind LocalWorker_port get_count emit modify_self ret].
    rewrite Halloc. reflexivity. }
  rewrite Heq. destruct Hst1 as (_ & _ & Hp & Hr & Hc).
  rewrite Hp, Hr, Hc. subst st1. simpl. auto.
Qed.

(** C8. With a port assigned and [reconnecting] false, any number of calls
    of [LocalWorker.start()], however each of them ends, leaves
    [available_port] as it was and allocates no port; with [reconnecting]
    true, a call of [start()] asks the system for a port and, given one,
    leaves it in [available_port]. *)
Theorem LocalWorker_port_stability (E : Env) :
  (forall (fuels : list nat) (st : mstate),
     truthy (available_port (self st)) = true ->
     reconnecting (self st) = false ->
     available_port (self (LocalWorker_starts E fuels st))
     = available_port (self st) /\
     count is_alloc (trace (LocalWorker_starts E fuels st))
     = count is_alloc (trace st)) /\
  (forall (fuel : nat) (st : mstate) (p : Z),
     truthy (available_port (self st)) = true ->
     reconnecting (self st) = true ->
     os_ephemeral_port E (count is_alloc (trace st)) = Some p ->
     available_port (self (final (LocalWorker_start E fuel st))) = VInt p /\
     count is_alloc (trace (final (LocalWorker_start E fuel st)))
     = S (count is_alloc (trace st))).
Proof.
  split.
  - induction fuels as [|fuel fuels IH]; intros st Hport Hrec; simpl.
    + split; reflexivity.
    + destruct (LocalWorker_start_same_identity E fuel st Hport Hrec)
        as (_ & _ & Hp & Hr & Hc).
      destruct (IH (final (LocalWorker_start E fuel st))) as [IHp IHc].
      * rewrite Hp. exact Hport.
      * rewrite Hr. exact Hrec.
      * rewrite IHp, IHc, Hp, Hc. split; reflexivity.
  - intros fuel st p Hport Hrec Halloc.
    pose proof (LocalWorker_start_reallocates E fuel st p Hrec Halloc) as H.
    cbv zeta in H. destruct H as (Hp & _ & Hc).
    unfold LocalWorker_start. rewrite bind_get_self, Hport.
    simpl negb. cbv iota. rewrite bind_ret.
    split; [exact Hp|exact Hc].
Qed.

(** ** The [reconnecting] flag is never cleared *)





Lemma registry_keeps_refl g : registry_keeps_reconnecting g g.
Proof. intros id w Hw Hr. eauto. Qed.








(** ** Calls that return *)

Lemma count_polled (P : event -> bool) host port k tr :
  count P (polled host port k tr)
  = (k * ((if P ESleep then 1 else 0)
          + (if P (EConnect host port Refused) then 1 else 0))
     + count P tr)%nat.
Proof.
  revert tr. induction k as [|k IH]; intros tr; simpl; [reflexivity|].
  rewrite IH. simpl. lia.
Qed.

(** The polling loop of [LocalWorker.start] ends when, after [k] refused
    connections, one goes through, given fuel for [k + 1] iterations. *)
Lemma wait_until_active_returns (E : Env) (k fuel : nat) (st : mstate) :
  (forall i, (i < k)%nat ->
     os_connect E (hostname (self st)) (available_port (self st))
       (count is_connect (trace st) + i) = Refused) ->
  os_connect E (hostname (self st)) (available_port (self st))
    (count is_connect (trace st) + k) = Connected ->
  (k < fuel)%nat ->
  wait_until_active E fuel st
  = Ret tt
      {| self := self st;
         trace :=
           EConnect (hostname (self st)) (available_port (self st)) Connected
           :: polled (hostname (self st)) (available_port (self st)) k
                (trace st) |}.
Proof.
  revert fuel st. induction k as [|k IH]; intros fuel st Href Hconn Hfuel.
  - destruct fuel as [|fuel]; [lia|]. simpl.
    rewrite Nat.add_0_r in Hconn.
    cbv [bind server_is_active get_self get_count emit ret].
    rewrite Hconn. reflexivity.
  - destruct fuel as [|fuel]; [lia|]. simpl.
    pose proof (Href 0%nat ltac:(lia)) as H0. rewrite Nat.add_0_r in H0.
    set (st1 := {| self := self st;
                   trace := ESleep :: EConnect (hostname (self st))
                              (available_port (self st)) Refused
                              :: trace st |}).
    assert (Hstep : forall k' : unit -> M mstate unit,
      bind (server_is_active E)
        (fun active => if active then ret tt else emit ESleep;; k' tt) st
      = k' tt st1).
    { intros k'.
      cbv [bind server_is_active get_self get_count emit ret].
      rewrite H0. reflexivity. }
    rewrite (Hstep (fun _ => wait_until_active E fuel)).
    rewrite (IH fuel st1).
    + reflexivity.
    + intros i Hi. simpl. rewrite <- Nat.add_succ_r. apply Href. lia.
    + simpl. rewrite <- Nat.add_succ_r. exact Hconn.
    + lia.
Qed.

Lemma quiet_refl st : quiet st st.
Proof. unfold quiet. auto using same_identity_refl. Qed.

Lemma quiet_trans st1 st2 st3 : quiet st1 st2 -> quiet st2 st3 -> quiet st1 st3.
Proof.
  unfold quiet. intros (Hi & ?) (Hi' & ?).
  split; [exact (same_identity_trans _ _ _ Hi Hi')|intuition congruence].
Qed.

(** [build_server] returns when the [extra_paths] setting is a list or a
    string and [create_subprocess] does not raise. *)
Lemma build_server_returns (E : Env) (st : mstate) :
  setting_extra_paths E <> PathsOther ->
  (forall args e,
     os_spawn E args (count is_spawn (trace st)) <> SpawnRaised e) ->
  exists st',
    LocalWorker_build_server E st = Ret tt st' /\
    quiet st st' /\
    count is_spawn (trace st') = S (count is_spawn (trace st)) /\
    count is_kill (trace st') = count is_kill (trace st) /\
    extends (trace st) (trace st') /\
    ((forall args, os_spawn E args (count is_spawn (trace st)) = Spawned) ->
     process (self st') = Some (count is_spawn (trace st))).
Proof.
  intros Hpaths Hspawn.
  cbv [LocalWorker_build_server bind get_self get_count emit ret raise
       modify_self].
  destruct (setting_extra_paths E) as [l|s|]; [| |contradiction];
    cbv beta iota;
    match goal with
    | |- context [os_spawn E ?a ?n] =>
      destruct (os_spawn E a n) as [| |e] eqn:Hs;
        [| |exfalso; exact (Hspawn _ _ Hs)]
    end;
    (eexists; split; [reflexivity|]);
    (split; [unfold quiet, same_identity; simpl; tauto|]);
    (split; [reflexivity|]); (split; [reflexivity|]);
    (split; [first [eexists [_]; reflexivity|eexists [_; _]; reflexivity]|]);
    intros Hall; simpl in *;
    first [reflexivity | rewrite Hall in Hs; discriminate Hs].
Qed.

(** ** sanitize_server *)

(** C9. On a [LocalWorker] with a client and a process handle, when the
    endpoint is not reachable once the process is killed and the spawn of
    [build_server] gives a handle, [sanitize_server()] returns with
    [hostname] and [available_port] as before, after closing the client and
    killing the old process (the only kill of the call), and [process] holds
    the handle of the spawn made in the call. *)
Theorem sanitize_server_respawns (E : Env) (fuel : nat) (st : mstate)
    (c : client) (p : proc) :
  w_client (self st) = Some c ->
  process (self st) = Some p ->
  not_reachable
    (os_connect E (hostname (self st)) (available_port (self st))
       (count is_connect (trace st))) = true ->
  setting_extra_paths E <> PathsOther ->
  (forall args, os_spawn E args (count is_spawn (trace st)) = Spawned) ->
  exists st',
    LocalWorker_sanitize_server (LocalWorker_start_json_server E (S fuel)) st
    = Ret tt st' /\
    hostname (self st') = hostname (self st) /\
    available_port (self st') = available_port (self st) /\
    extends (EKill p :: EClose c :: trace st) (trace st') /\
    count is_kill (trace st') = S (count is_kill (trace st)) /\
    process (self st') = Some (count is_spawn (trace st)) /\
    count is_spawn (trace st') = S (count is_spawn (trace st)).
Proof.
  intros Hc Hp Hconn Hpaths Hspawn.
  set (r := os_connect E (hostname (self st)) (available_port (self st))
              (count is_connect (trace st))) in *.
  assert (Hrun :
    LocalWorker_sanitize_server (LocalWorker_start_json_server E (S fuel)) st
    = LocalWorker_build_server E
        {| self := self st;
           trace :=
             ELogInfo
             :: (match r with SocketError => [ELogError] | _ => [] end)
             ++ EConnect (hostname (self st)) (available_port (self st)) r
             :: EKill p :: EClose c :: trace st |}).
  { unfold LocalWorker_sanitize_server. rewrite bind_get_self, Hc.
    cbv [bind emit]. rewrite Hp. simpl LocalWorker_start_json_server.
    cbv [start_json_server bind server_is_active get_self get_count emit ret].
    simpl. fold r. destruct r; try discriminate Hconn; reflexivity. }
  rewrite Hrun.
  match goal with
  | |- context [LocalWorker_build_server E ?s] =>
    destruct (build_server_returns E s Hpaths) as
      (st' & Hret & Hquiet & Hn & Hk & Hext & Hproc)
  end.
  { intros args e. simpl. rewrite count_app. simpl.
    replace (count is_spawn (match r with SocketError => [ELogError] | _ => [] end))
      with 0%nat by (destruct r; reflexivity).
    simpl. rewrite Hspawn. discriminate. }
  assert (Hz : forall P : event -> bool, P ELogError = false ->
    count P (match r with SocketError => [ELogError] | _ => [] end) = 0%nat).
  { intros P HP. destruct r; simpl; rewrite ?HP; reflexivity. }
  exists st'. split; [exact Hret|].
  destruct Hquiet as ((_ & Hh & Hport & _) & _).
  simpl in Hn, Hk, Hh, Hport, Hproc. rewrite count_app in Hn, Hk, Hproc.
  rewrite Hz in Hn, Hk, Hproc by reflexivity. simpl in Hn, Hk, Hproc.
  repeat split; try assumption.
  - destruct Hext as [l ->]. simpl.
    exists (l ++ ELogInfo
              :: (match r with SocketError => [ELogError] | _ => [] end)
              ++ [EConnect (hostname (self st)) (available_port (self st)) r]).
    rewrite <- !app_assoc. simpl. rewrite <- app_assoc. reflexivity.
  - apply Hproc. exact Hspawn.
Qed.

(** ** The first call of start() *)

(** [start()] on a [LocalWorker] without a port: the system gives port [p],
    the probe of [start_json_server] and [k] probes of the polling loop find
    the connection refused, the next probe connects.  The call returns with
    a client constructed with [p] and sends nothing. *)
Lemma LocalWorker_start_binds (E : Env) (fuel k : nat) (st : mstate) (p : Z) :
  truthy (available_port (self st)) = false ->
  reconnecting (self st) = false ->
  os_ephemeral_port E (count is_alloc (trace st)) = Some p ->
  (forall i, (i <= k)%nat ->
     os_connect E (hostname (self st)) (VInt p)
       (count is_connect (trace st) + i) = Refused) ->
  os_connect E (hostname (self st)) (VInt p)
    (count is_connect (trace st) + S k) = Connected ->
  setting_extra_paths E <> PathsOther ->
  (forall args e,
     os_spawn E args (count is_spawn (trace st)) <> SpawnRaised e) ->
  (k < fuel)%nat ->
  exists st',
    LocalWorker_start E fuel st = Ret tt st' /\
    kind (self st') = kind (self st) /\
    hostname (self st') = hostname (self st) /\
    available_port (self st') = VInt p /\
    reconnecting (self st') = false /\
    w_client (self st')
    = Some (Client (count is_new_client (trace st)) (VInt p)) /\
    count is_new_client (trace st') = S (count is_new_client (trace st)) /\
    count is_send (trace st') = count is_send (trace st).
Proof.
  intros Hport Hrec Halloc Href Hconn Hpaths Hspawn Hfuel.
  unfold LocalWorker_start. rewrite bind_get_self, Hport.
  simpl negb. cbv iota.
  set (st1 := {| self := set_available_port (VInt p) (self st);
                 trace := EAllocPort (Some p) :: trace st |}).
  set (h := fun error : exn => _).
  assert (H1 : forall K : unit -> M mstate unit,
    bind (let* p := LocalWorker_port E in
          modify_self (set_available_port p)) K st = K tt st1).
  { intros K.
    cbv [bind LocalWorker_port get_count emit modify_self ret].
    rewrite Halloc. reflexivity. }
  rewrite H1. rewrite try_get_self.
  change (reconnecting (self st1)) with (reconnecting (self st)).
  rewrite Hrec. cbv iota. rewrite try_bind_ret.
  (* start_json_server: the probe is refused, build_server runs *)
  set (st1' := {| self := self st1;
                  trace := ELogInfo
                           :: EConnect (hostname (self st)) (VInt p) Refused
                           :: trace st1 |}).
  destruct (build_server_returns E st1' Hpaths Hspawn)
    as (st2 & Hbuild & Hquiet & _).
  assert (H2 : LocalWorker_start_json_server E fuel st1 = Ret tt st2).
  { destruct fuel as [|f]; [lia|]. simpl.
    rewrite <- Hbuild.
    cbv [start_json_server bind server_is_active get_self get_count emit ret].
    simpl. pose proof (Href 0%nat ltac:(lia)) as H0.
    rewrite Nat.add_0_r in H0. rewrite H0. reflexivity. }
  destruct Hquiet as ((Hk2 & Hh2 & Hp2 & Hr2 & _) & Hc2 & Hn2 & Hnc2 & Hs2).
  simpl in Hk2, Hh2, Hp2, Hr2, Hc2, Hn2, Hnc2, Hs2.
  (* the polling loop *)
  assert (H3 : wait_until_active E fuel st2
               = Ret tt
                   {| self := self st2;
                      trace :=
                        EConnect (hostname (self st)) (VInt p) Connected
                        :: polled (hostname (self st)) (VInt p) k
                             (trace st2) |}).
  { rewrite (wait_until_active_returns E k fuel st2);
      rewrite ?Hh2, ?Hp2, ?Hn2; try reflexivity; try assumption.
    - intros i Hi. rewrite Nat.add_succ_l, <- Nat.add_succ_r.
      apply Href. lia.
    - rewrite Nat.add_succ_l, <- Nat.add_succ_r. exact Hconn. }
  eexists. split.
  { apply try_except_Ret.
    rewrite (bind_Ret _ _ _ _ _ H2). rewrite (bind_Ret _ _ _ _ _ H3).
    cbv [bind get_self AsynClient get_count emit modify_self ret].
    reflexivity. }
  simpl. rewrite !count_polled. simpl.
  rewrite Hk2, Hh2, Hp2, Hr2, Hnc2, Hs2, Hrec.
  rewrite !Nat.mul_0_r. simpl.
  repeat split; reflexivity.
Qed.

(** ** The registry's execute *)

Lemma on_worker_Ret {A} (window_id : Z) (m : M mstate A) (g : gstate)
    (w : worker) (a : A) (st : mstate) :
  WORKERS g !! window_id = Some w ->
  m {| self := w; trace := gtrace g |} = Ret a st ->
  on_worker window_id m g
  = Ret a {| WORKERS := <[window_id := self st]> (WORKERS g);
             gtrace := trace st |}.
Proof. intros Hw Hm. unfold on_worker. rewrite Hw, Hm. reflexivity. Qed.

(** [execute] for a window whose worker has a connected client: the command
    goes through that client, once, and nothing else happens. *)
Lemma Worker_execute_connected (E : Env) (fuel : nat) (window_id : Z)
    (vagrant_environment : value) callback data (g : gstate) (w : worker)
    (c : client) :
  WORKERS g !! window_id = Some w ->
  w_client w = Some c ->
  rpc_connected E c (count is_connected_query (gtrace g)) = true ->
  Worker_execute E fuel window_id vagrant_environment callback data g
  = Ret tt {| WORKERS := <[window_id := w]> (WORKERS g);
              gtrace := ESend c callback data :: EConnectedQuery c
                        :: gtrace g |}.
Proof.
  intros Hw Hc Hconn. unfold Worker_execute.
  change (bind get_WORKERS ?k g) with (k (WORKERS g) g). cbv beta.
  rewrite Hw. rewrite bind_ret.
  apply (on_worker_Ret window_id _ g w tt
           {| self := w;
              trace := ESend c callback data :: EConnectedQuery c
                       :: gtrace g |} Hw).
  rewrite bind_get_self. cbn [self]. rewrite Hc.
  cbv [bind client_connected get_count emit ret send_command]. simpl.
  rewrite Hconn. reflexivity.
Qed.

(** C1 (amended). For a window without a worker and without a
    [vagrant_environment], when the system gives port [p], the probes find
    the connection refused up to the [k]-th iteration of the polling loop
    and the next one connects, [execute] returns with a [LocalWorker]
    registered for the window whose host name is [localhost], whose port is
    [p] and whose client was constructed with [p]; one client is constructed
    and the command of that call is not sent.  A later call that finds this
    client connected sends its command through it, once. *)
Theorem Worker_execute_first_call (E : Env) (fuel k : nat) (window_id : Z)
    callback data (g : gstate) (p : Z) :
  WORKERS g !! window_id = None ->
  os_ephemeral_port E (count is_alloc (gtrace g)) = Some p ->
  (forall i, (i <= k)%nat ->
     os_connect E (VStr "localhost") (VInt p)
       (count is_connect (gtrace g) + i) = Refused) ->
  os_connect E (VStr "localhost") (VInt p)
    (count is_connect (gtrace g) + S k) = Connected ->
  setting_extra_paths E <> PathsOther ->
  (forall args e,
     os_spawn E args (count is_spawn (gtrace g)) <> SpawnRaised e) ->
  (k < fuel)%nat ->
  exists (g' : gstate) (w : worker),
    let c := Client (count is_new_client (gtrace g)) (VInt p) in
    Worker_execute E fuel window_id VNone callback data g = Ret tt g' /\
    WORKERS g' !! window_id = Some w /\
    kind w = LocalWorker /\
    hostname w = VStr "localhost" /\
    available_port w = VInt p /\
    w_client w = Some c /\
    count is_new_client (gtrace g') = S (count is_new_client (gtrace g)) /\
    count is_send (gtrace g') = count is_send (gtrace g) /\
    (forall fuel' vagrant_environment callback' data',
       rpc_connected E c (count is_connected_query (gtrace g')) = true ->
       exists g'',
         Worker_execute E fuel' window_id vagrant_environment callback' data'
           g' = Ret tt g'' /\
         gtrace g'' = ESend c callback' data' :: EConnectedQuery c
                      :: gtrace g').
Proof.
  intros Hnone Halloc Href Hconn Hpaths Hspawn Hfuel.
  destruct (LocalWorker_start_binds E fuel k
              {| self := BaseWorker_init LocalWorker; trace := gtrace g |} p)
    as (st' & Hstart & Hk & Hh & Hp & Hr & Hc & Hn & Hs);
    try assumption; try reflexivity.
  simpl in Hk, Hh, Hc, Hn, Hs.
  set (g1 := {| WORKERS := <[window_id := BaseWorker_init LocalWorker]>
                             (WORKERS g);
                gtrace := gtrace g |}).
  assert (Hrun :
    Worker_execute E fuel window_id VNone callback data g
    = Ret tt {| WORKERS := <[window_id := self st']> (WORKERS g1);
                gtrace := trace st' |}).
  { unfold Worker_execute.
    change (bind get_WORKERS ?k g) with (k (WORKERS g) g). cbv beta.
    rewrite Hnone.
    assert (Hfirst : forall K : unit -> M gstate unit,
      bind
        (try_except
           (if vagrant_is_active VNone then
              let* w := construct RemoteWorker (RemoteWorker_init E fuel VNone) in
              store window_id w
            else
              let* w := construct LocalWorker (ret tt) in
              store window_id w)
           (fun error => gemit ELogError;; gemit ELogError)) K g
      = K tt g1) by reflexivity.
    rewrite Hfirst.
    apply on_worker_Ret with (w := BaseWorker_init LocalWorker).
    - apply lookup_insert_eq.
    - rewrite bind_get_self. simpl.
      unfold Worker_start. rewrite bind_get_self. simpl. exact Hstart. }
  eexists _, (self st'). cbv zeta.
  split; [exact Hrun|]. simpl.
  split; [apply lookup_insert_eq|].
  repeat (split; [assumption|]).
  intros fuel' venv callback' data' Hconnected.
  eexists. split.
  - apply Worker_execute_connected with (w := self st').
    + apply lookup_insert_eq.
    + exact Hc.
    + exact Hconnected.
  - reflexivity.
Qed.

(** ** RemoteWorker: construction *)

(** The wait of [check_status] never ends: the variable it tests is never
    assigned.  It connects to nothing meanwhile. *)
Lemma check_status_wait_diverges (fuel : nat)
    (report : option (nat * status_result)) (i : nat) (st : mstate) :
  exists st',
    check_status_wait fuel report i false st = Fuel st' /\
    count is_connect (trace st') = count is_connect (trace st).
Proof.
  revert i st. induction fuel as [|f IH]; intros i st; simpl.
  - eexists. split; reflexivity.
  - assert (Hcb : exists st1,
      (match report with
       | Some (at_, result) =>
         if Nat.eqb at_ i then
           try_except (status result;; ret tt) (fun _ => ret tt)
         else ret tt
       | None => ret tt
       end) st = Ret tt st1 /\
      count is_connect (trace st1) = count is_connect (trace st)).
    { destruct report as [[at_ [[[] out] error]]|];
        [destruct (Nat.eqb at_ i)..|];
        cbv [try_except bind status negb];
        try destruct (utf8_valid error);
        eexists; split; reflexivity. }
    destruct Hcb as (st1 & Hcb & Hn).
    rewrite (bind_Ret _ _ _ _ _ Hcb). cbv iota.
    destruct (IH (S i) {| self := self st1; trace := ESleep :: trace st1 |})
      as (st' & Hrec & Hn').
    exists st'. split.
    + cbv [bind emit]. exact Hrec.
    + rewrite Hn'. simpl. exact Hn.
Qed.

(** C3. [check_status] never returns: in any environment, with any fuel and
    in any state it raises or is still waiting; with the directory and the
    machine of the scenario configured, it is still waiting after any
    number of iterations, whenever the status callback runs and whether it
    is given success or failure. *)
Theorem check_status_never_returns :
  (forall (E : Env) (fuel : nat) (st : mstate),
     match RemoteWorker_check_status E fuel st with
     | Ret _ _ => False
     | Exc _ _ | Fuel _ => True
     end) /\
  (forall (at_ : nat) (result : status_result) (fuel : nat),
     exists st',
       RemoteWorker_check_status (with_status at_ result local_env) fuel
         {| self := set_config remote_config (BaseWorker_init RemoteWorker);
            trace := [] |}
       = Fuel st').
Proof.
  split.
  - intros E fuel st. unfold RemoteWorker_check_status.
    rewrite bind_get_self.
    destruct (py_getitem (config (self st)) "directory") as [e|d];
      [exact I|].
    destruct (py_getitem (config (self st)) "machine") as [e|m];
      [exact I|].
    cbv [lift_exn bind ret emit].
    match goal with
    | |- context [check_status_wait ?f ?r ?i false ?s] =>
      destruct (check_status_wait_diverges f r i s) as (st' & -> & _)
    end.
    exact I.
  - intros at_ result fuel. unfold RemoteWorker_check_status.
    rewrite bind_get_self. cbv [lift_exn bind ret emit]. simpl.
    match goal with
    | |- context [check_status_wait ?f ?r ?i false ?s] =>
      destruct (check_status_wait_diverges f r i s) as (st' & -> & _)
    end.
    eexists. reflexivity.
Qed.

(** With the directory, the network and the machine configured, the
    constructor of [RemoteWorker] reaches the wait of [check_status] and
    stays there, having connected to nothing. *)
Lemma RemoteWorker_init_diverges (E : Env) (fuel : nat) (cfg : value)
    (tr : list event) :
  cfg = remote_config \/ cfg = remote_config_no_port ->
  exists st',
    RemoteWorker_init E fuel cfg
      {| self := BaseWorker_init RemoteWorker; trace := tr |} = Fuel st' /\
    count is_connect (trace st') = count is_connect tr.
Proof.
  intros [-> | ->];
    cbv [RemoteWorker_init RemoteWorker_init_with RemoteWorker_check_config
         RemoteWorker_port RemoteWorker_check_status bind get_self
         modify_self emit ret lift_exn];
    simpl;
    match goal with
    | |- context [check_status_wait ?f ?r ?i false ?s] =>
      destruct (check_status_wait_diverges f r i s) as (st' & -> & Hn)
    end;
    exists st'; (split; [reflexivity|]); rewrite Hn; reflexivity.
Qed.

Lemma Worker_execute_remote_diverges (E : Env) (fuel : nat) (window_id : Z)
    (cfg : value) callback data :
  cfg = remote_config \/ cfg = remote_config_no_port ->
  exists g',
    Worker_execute E fuel window_id cfg callback data empty_registry
    = Fuel g' /\
    WORKERS g' = ∅ /\
    count is_connect (gtrace g') = 0%nat.
Proof.
  intros Hcfg.
  destruct (RemoteWorker_init_diverges E fuel cfg [] Hcfg) as (st' & Hinit & Hn).
  exists {| WORKERS := ∅; gtrace := trace st' |}.
  split; [|split; [reflexivity|exact Hn]].
  unfold Worker_execute.
  change (bind get_WORKERS ?k empty_registry)
    with (k (WORKERS empty_registry) empty_registry).
  cbv beta. simpl WORKERS. rewrite lookup_empty.
  assert (Hactive : vagrant_is_active cfg = true)
    by (destruct Hcfg as [-> | ->]; reflexivity).
  rewrite Hactive.
  cbv [bind try_except construct]. simpl gtrace. rewrite Hinit. reflexivity.
Qed.

(** C2. With the remote configuration of the scenario and a status check
    that reports failure, a call of [execute] never gets past the
    constructor: whatever the fuel and whenever the callback runs, it is
    still waiting, no worker is registered and no connection was attempted.
    The callback on its own leaves [support] false; the constructor with a
    [check_status] that ends once the callback has run leaves [support]
    true. *)
Theorem failed_status_check_construction :
  (forall (at_ fuel : nat),
     exists g',
       Worker_execute (with_status at_ status_failure local_env) fuel 7
         remote_config
         "lint" lint_data empty_registry = Fuel g' /\
       WORKERS g' = ∅ /\
       count is_connect (gtrace g') = 0%nat) /\
  support (self (final (status status_failure (new_object RemoteWorker))))
  = Some false /\
  (exists st',
     RemoteWorker_init_with (status status_failure;; ret tt) remote_config
       (new_object RemoteWorker) = Ret tt st' /\
     support (self st') = Some true).
Proof.
  split; [|split].
  - intros at_ fuel. apply Worker_execute_remote_diverges. left. reflexivity.
  - reflexivity.
  - eexists. split; [cbv; reflexivity|reflexivity].
Qed.

(** C5. With a configuration that lacks [network.port], [check_config]
    sets [support] to false, and a call of [execute] never gets past the
    constructor, in any environment and with any fuel: no worker is
    registered.  The constructor with a [check_status] that returns leaves
    [support] true and the port 19360, and [start()] on that worker
    connects. *)
Theorem missing_port_construction :
  (exists st1,
     RemoteWorker_check_config
       {| self := set_config remote_config_no_port
                    (BaseWorker_init RemoteWorker);
          trace := [] |} = Ret false st1 /\
     support (self st1) = Some false) /\
  (forall (E : Env) (fuel : nat),
     exists g',
       Worker_execute E fuel 7 remote_config_no_port "lint" lint_data
         empty_registry = Fuel g' /\
       WORKERS g' = ∅) /\
  (exists st',
     RemoteWorker_init_with (ret tt) remote_config_no_port
       (new_object RemoteWorker) = Ret tt st' /\
     support (self st') = Some true /\
     available_port (self st') = VInt 19360 /\
     count is_connect (trace (final (RemoteWorker_start local_env 1 st')))
     = 1%nat).
Proof.
  split; [|split].
  - eexists. split; [cbv; reflexivity|reflexivity].
  - intros E fuel.
    destruct (Worker_execute_remote_diverges E fuel 7 remote_config_no_port
                "lint" lint_data) as (g' & Hrun & Hw & _);
      [right; reflexivity|].
    exists g'. split; assumption.
  - eexists. split; [cbv; reflexivity|]. repeat split; reflexivity.
Qed.

(** C4. With a [vagrant_environment] that has no [network] entry the
    constructor raises [KeyError]; [execute] logs it, stores no worker, and
    then raises [KeyError] itself at [WORKERS[window_id]]. *)
Theorem Worker_execute_raises_KeyError (E : Env) (fuel : nat) (window_id : Z)
    (callback : string) (data : list (string * value)) :
  Worker_execute E fuel window_id remote_config_no_network callback data
    empty_registry
  = Exc KeyError {| WORKERS := ∅; gtrace := [ELogError; ELogError] |}.
Proof.
  unfold Worker_execute.
  change (bind get_WORKERS ?k empty_registry)
    with (k (WORKERS empty_registry) empty_registry).
  cbv beta. simpl WORKERS. rewrite lookup_empty.
  cbv [bind try_except construct on_worker gemit vagrant_is_active
       RemoteWorker_init RemoteWorker_init_with RemoteWorker_check_config
       get_self modify_self lift_exn ret raise].
  simpl. rewrite lookup_empty. reflexivity.
Qed.

(** ** The scenarios, evaluated *)

(** C1, counterexample.  In the local scenario the first call of [execute]
    returns with the client bound to port 54321 after five connections, and
    the command was sent zero times, not once. *)
Lemma first_call_forwards_nothing :
  exists g' w,
    Worker_execute local_env 5 7 VNone "lint" lint_data empty_registry
    = Ret tt g' /\
    WORKERS g' !! 7 = Some w /\
    hostname w = VStr "localhost" /\
    w_client w = Some (Client 0 (VInt 54321)) /\
    count is_connect (gtrace g') = 5%nat /\
    count is_send (gtrace g') = 0%nat /\
    count is_send (gtrace g') <> 1%nat.
Proof.
  eexists _, _. split; [vm_compute; reflexivity|].
  split; [vm_compute; reflexivity|].
  repeat split; try reflexivity. vm_compute. discriminate.
Qed.

(** The amended C1 in the local scenario. *)
Lemma Worker_execute_first_call_witness :
  exists (g' : gstate) (w : worker),
    Worker_execute local_env 5 7 VNone "lint" lint_data empty_registry
    = Ret tt g' /\
    WORKERS g' !! 7 = Some w /\
    w_client w = Some (Client 0 (VInt 54321)) /\
    count is_send (gtrace g') = 0%nat.
Proof.
  destruct (Worker_execute_first_call local_env 5 3 7 "lint" lint_data
              empty_registry 54321)
    as (g' & w & Hrun & Hw & _ & _ & _ & Hc & _ & Hs & _).
  - reflexivity.
  - reflexivity.
  - intros i Hi.
    destruct i as [|[|[|[|i]]]]; [reflexivity..|lia].
  - reflexivity.
  - discriminate.
  - discriminate.
  - lia.
  - exists g', w. repeat split; assumption.
Defined.

(** C6 in the scenarios: healthy server, server that answers [b'No'],
    endpoint gone. *)
Lemma start_json_server_ordering_witness :
  (exists st2,
     start_json_server local_env (raise RuntimeError) (raise AttributeError)
       started_worker = Ret tt st2) /\
  (exists st2,
     start_json_server (with_exchange (ExchData [x4e; x6f]) local_env)
       (raise RuntimeError) (raise AttributeError) started_worker
     = Exc RuntimeError st2) /\
  (exists st2,
     start_json_server respawn_env
       (raise RuntimeError) (raise AttributeError) started_worker
     = Exc AttributeError st2).
Proof.
  split; [|split].
  - set (E := local_env).
    set (st1 := final (server_is_active E started_worker)).
    set (st2 := final (server_is_healthy E st1)).
    exists st2.
    apply (proj1 (start_json_server_ordering E (raise RuntimeError)
                    (raise AttributeError) started_worker st1 st2));
      vm_compute; reflexivity.
  - set (E := with_exchange (ExchData [x4e; x6f]) local_env).
    set (st1 := final (server_is_active E started_worker)).
    set (st2 := final (server_is_healthy E st1)).
    exists st2.
    rewrite (proj1 (proj2 (start_json_server_ordering E (raise RuntimeError)
                             (raise AttributeError) started_worker st1 st2)));
      [reflexivity|vm_compute; reflexivity..].
  - set (E := respawn_env).
    set (st1 := final (server_is_active E started_worker)).
    eexists.
    rewrite (proj2 (proj2 (start_json_server_ordering E (raise RuntimeError)
                             (raise AttributeError) started_worker st1 st1)));
      [reflexivity|vm_compute; reflexivity].
Defined.

(** C7 in the scenarios: a running server that answers [b'Ok'], and a
    process that has exited. *)
Lemma server_is_healthy_exact_witness :
  (exists b st',
     server_is_healthy local_env started_worker = Ret b st' /\
     (b = true <->
      os_exchange local_env (VStr "localhost") (VInt 54321) 0 = ExchData b_Ok)) /\
  (exists st',
     server_is_healthy (with_exit_code 1 local_env) started_worker
     = Ret false st' /\
     count is_health_check (trace st') = 0%nat).
Proof.
  split.
  - apply (proj1 (server_is_healthy_exact local_env started_worker 0%nat
                    eq_refl)).
    reflexivity.
  - apply (proj2 (server_is_healthy_exact (with_exit_code 1 local_env)
                    started_worker 0%nat eq_refl)).
    discriminate.
Defined.

(** C8 in the local scenario: two more calls of [start()] keep port 54321;
    with [reconnecting] set, the next call moves to port 54322. *)
Lemma LocalWorker_port_stability_witness :
  available_port (self (LocalWorker_starts local_env [5; 5]%nat started_worker))
  = VInt 54321 /\
  available_port
    (self (final (LocalWorker_start local_env 5 reconnecting_worker)))
  = VInt 54322.
Proof.
  split.
  - apply (proj1 (LocalWorker_port_stability local_env) [5; 5]%nat
             started_worker); reflexivity.
  - apply (proj2 (LocalWorker_port_stability local_env) 5%nat
             reconnecting_worker 54322); reflexivity.
Defined.

(** C9 in the scenario where the endpoint is gone after the kill: the
    worker keeps [localhost] and 54321, process 0 is killed and process 1
    is held. *)
Lemma sanitize_server_respawns_witness :
  exists st',
    LocalWorker_sanitize_server (LocalWorker_start_json_server respawn_env 1)
      started_worker = Ret tt st' /\
    hostname (self st') = VStr "localhost" /\
    available_port (self st') = VInt 54321 /\
    extends
      (EKill 0%nat :: EClose (Client 0 (VInt 54321)) :: trace started_worker)
      (trace st') /\
    process (self st') = Some 1%nat.
Proof.
  destruct (sanitize_server_respawns respawn_env 0 started_worker
              (Client 0 (VInt 54321)) 0%nat)
    as (st' & Hrun & Hh & Hp & Hext & _ & Hproc & _).
  - reflexivity.
  - reflexivity.
  - reflexivity.
  - discriminate.
  - reflexivity.
  - exists st'. repeat split; assumption.
Defined.


(** * Further properties of the workers *)

(** ** Footprints *)

Lemma adds_refl A st : adds A st st.
Proof. exists []. split; reflexivity. Qed.

Lemma adds_trans A st1 st2 st3 :
  adds A st1 st2 -> adds A st2 st3 -> adds A st1 st3.
Proof.
  intros (l1 & H1 & F1) (l2 & H2 & F2). exists (l2 ++ l1). split.
  - rewrite H2, H1. apply app_assoc.
  - rewrite forallb_app, F1, F2. reflexivity.
Qed.

Lemma adds_emit A e : A e = true -> stable (adds A) (emit e).
Proof. intros He st. exists [e]. simpl. rewrite He. split; reflexivity. Qed.

Lemma adds_modify A (f : worker -> worker) : stable (adds A) (modify_self f).
Proof. intros st. exists []. split; reflexivity. Qed.

Lemma adds_weaken (A B : event -> bool) st st' :
  (forall e, A e = true -> B e = true) -> adds A st st' -> adds B st st'.
Proof.
  intros HAB (l & Hl & Fl). exists l. split; [exact Hl|].
  clear Hl. induction l as [|e l IH]; [reflexivity|]. simpl in *.
  apply andb_prop in Fl as [He Fl]. rewrite (HAB e He), (IH Fl). reflexivity.
Qed.

(** Events outside the footprint keep their number. *)
Lemma count_adds (A P : event -> bool) st st' :
  (forall e, A e = true -> P e = false) ->
  adds A st st' ->
  count P (trace st') = count P (trace st).
Proof.
  intros HAP (l & -> & Fl). rewrite count_app.
  replace (count P l) with 0%nat; [reflexivity|].
  induction l as [|e l IH]; [reflexivity|]. simpl in *.
  apply andb_prop in Fl as [He Fl]. rewrite (HAP e He), <- (IH Fl). reflexivity.
Qed.

(** Goals [stable R m] by the structure of [m] alone. *)
Ltac stable_struct side :=
  repeat first
    [ side
    | assumption
    | match goal with IH : forall _, stable _ _ |- stable _ _ => apply IH end
    | progress intros
    | apply stable_get_self
    | apply stable_get_count
    | apply stable_ret
    | apply stable_raise
    | apply stable_out_of_fuel
    | apply stable_lift_exn
    | apply stable_bind
    | apply stable_try_except
    | match goal with
      | |- stable _ (match ?x with _ => _ end) => destruct x
      | |- stable _ (let _ := _ in _) => cbv zeta
      end ].

Ltac adds_side :=
  first
    [ exact (adds_refl _)
    | exact (adds_trans _)
    | apply adds_emit; reflexivity
    | apply adds_modify
    | progress unfold server_is_active, server_is_healthy, AsynClient,
        LocalWorker_port, LocalWorker_build_server,
        LocalWorker_sanitize_server, start_json_server, status ].

Lemma local_footprint_start_json_server (E : Env) (fuel : nat) :
  stable (adds local_start_event) (LocalWorker_start_json_server E fuel).
Proof.
  induction fuel as [|f IH]; simpl; stable_struct adds_side.
Qed.

Lemma local_footprint_wait (E : Env) (fuel : nat) :
  stable (adds local_start_event) (wait_until_active E fuel).
Proof.
  induction fuel as [|f IH]; simpl; stable_struct adds_side.
Qed.

Lemma local_footprint_start (E : Env) (fuel : nat) :
  stable (adds local_start_event) (LocalWorker_start E fuel).
Proof.
  pose proof (local_footprint_start_json_server E fuel).
  pose proof (local_footprint_wait E fuel).
  unfold LocalWorker_start. stable_struct adds_side.
Qed.

(** X2. Whatever way a call of [LocalWorker.start] ends, the events it adds
    are probes, process and client management, log lines and sleeps: it
    sends no command, asks no client whether it is connected and runs no
    remote status check. *)
Theorem LocalWorker_start_footprint (E : Env) (fuel : nat) (st : mstate) :
  adds local_start_event st (final (LocalWorker_start E fuel st)) /\
  count is_send (trace (final (LocalWorker_start E fuel st)))
  = count is_send (trace st) /\
  count is_connected_query (trace (final (LocalWorker_start E fuel st)))
  = count is_connected_query (trace st).
Proof.
  pose proof (local_footprint_start E fuel) as H.
  split; [apply H|].
  split; apply (count_adds local_start_event); try apply H;
    intros []; simpl; congruence.
Qed.

Lemma remote_footprint_wait (E : Env) (fuel : nat) :
  stable (adds remote_start_event) (RemoteWorker_wait E fuel).
Proof.
  induction fuel as [|f IH]; simpl; stable_struct adds_side.
Qed.

Lemma remote_footprint_start (E : Env) (fuel : nat) :
  stable (adds remote_start_event) (RemoteWorker_start E fuel).
Proof.
  pose proof (remote_footprint_wait E fuel).
  unfold RemoteWorker_start. stable_struct adds_side.
Qed.

(** X3. Whatever way a call of [RemoteWorker.start] ends, it has spawned,
    polled and killed no process, allocated no port, closed no client and
    sent no command: the events it adds are connections, their log lines,
    sleeps, the error dialog and the construction of a client. *)
Theorem RemoteWorker_start_footprint (E : Env) (fuel : nat) (st : mstate) :
  let st' := final (RemoteWorker_start E fuel st) in
  adds remote_start_event st st' /\
  count is_spawn (trace st') = count is_spawn (trace st) /\
  count is_kill (trace st') = count is_kill (trace st) /\
  count is_poll (trace st') = count is_poll (trace st) /\
  count is_alloc (trace st') = count is_alloc (trace st) /\
  count is_close (trace st') = count is_close (trace st) /\
  count is_send (trace st') = count is_send (trace st).
Proof.
  intros st'. pose proof (remote_footprint_start E fuel st) as H.
  split; [exact H|].
  repeat split; apply (count_adds remote_start_event); try exact H;
    intros []; simpl; congruence.
Qed.

(** ** LocalWorker.start: exceptions, a taken port, an endpoint that never
    comes up *)

Lemma try_except_logged {A} (body : M mstate A) (h : exn -> M mstate A)
    (st : mstate) :
  (forall e s, exists a s', h e s = Ret a s') ->
  match try_except body h st with
  | Exc _ _ => False
  | Ret _ _ | Fuel _ => True
  end.
Proof.
  intros Hh. unfold try_except.
  destruct (body st) as [a s'|e s'|s']; try exact I.
  destruct (Hh e s') as (a & s'' & ->). exact I.
Qed.

(** X1. [LocalWorker.start] lets no exception of its [try] block out: a
    call returns (or is still polling), except that the allocation of the
    first port, which is made before the [try], can raise its
    [socket.error]. *)
Theorem LocalWorker_start_swallows (E : Env) (fuel : nat) (st : mstate) :
  match LocalWorker_start E fuel st with
  | Exc e _ =>
    e = OSError /\
    truthy (available_port (self st)) = false /\
    os_ephemeral_port E (count is_alloc (trace st)) = None
  | Ret _ _ | Fuel _ => True
  end.
Proof.
  unfold LocalWorker_start. rewrite bind_get_self.
  set (h := fun error : exn => _). set (body := bind get_self _).
  assert (Hh : forall e s, exists a s', h e s = Ret a s')
    by (intros e s; eexists _, _; reflexivity).
  destruct (truthy (available_port (self st))) eqn:Hport; simpl negb; cbv iota.
  - rewrite bind_ret.
    pose proof (try_except_logged body h st Hh) as H.
    destruct (try_except body h st); tauto.
  - cbv [bind LocalWorker_port get_count emit modify_self ret raise].
    destruct (os_ephemeral_port E (count is_alloc (trace st))) as [p|] eqn:Hp.
    + match goal with
      | |- match try_except body h ?s with _ => _ end =>
        pose proof (try_except_logged body h s Hh) as H;
          destruct (try_except body h s); tauto
      end.
    + auto.
Qed.

(** X4. The first [start()] of a [LocalWorker] when something already
    listens on the port the system has just handed out: the probe of
    [start_json_server] connects, [server_is_healthy] finds no process
    handle, and the call returns after logging, with no server spawned and no
    client bound. *)
Theorem LocalWorker_start_port_taken (E : Env) (fuel : nat) (st : mstate)
    (p : Z) :
  truthy (available_port (self st)) = false ->
  reconnecting (self st) = false ->
  process (self st) = None ->
  os_ephemeral_port E (count is_alloc (trace st)) = Some p ->
  os_connect E (hostname (self st)) (VInt p) (count is_connect (trace st))
  = Connected ->
  LocalWorker_start E (S fuel) st
  = Ret tt
      {| self := set_available_port (VInt p) (self st);
         trace := ELogError :: ELogError
                  :: EConnect (hostname (self st)) (VInt p) Connected
                  :: EAllocPort (Some p) :: trace st |}.
Proof.
  intros Hport Hrec Hproc Halloc Hconn.
  unfold LocalWorker_start. rewrite bind_get_self, Hport.
  simpl negb. cbv iota. simpl LocalWorker_start_json_server.
  cbv [bind try_except LocalWorker_port get_self get_count emit modify_self
       ret raise start_json_server server_is_active server_is_healthy].
  rewrite Halloc. simpl. rewrite Hrec. simpl. rewrite Hconn. simpl.
  rewrite Hproc. reflexivity.
Qed.

Lemma wait_until_active_refused (E : Env) (fuel : nat) (st : mstate) :
  (forall n,
     os_connect E (hostname (self st)) (available_port (self st)) n
     = Refused) ->
  exists st',
    wait_until_active E fuel st = Fuel st' /\
    self st' = self st /\
    count is_connect (trace st') = (count is_connect (trace st) + fuel)%nat.
Proof.
  intros Href. revert st Href.
  induction fuel as [|f IH]; intros st Href; simpl.
  - exists st. repeat split. lia.
  - cbv [bind server_is_active get_self get_count emit ret].
    rewrite Href.
    destruct (IH {| self := self st;
                    trace := ESleep
                             :: EConnect (hostname (self st))
                                  (available_port (self st)) Refused
                             :: trace st |} Href)
      as (st' & Hrun & Hself & Hn).
    exists st'. split; [exact Hrun|]. split; [exact Hself|].
    rewrite Hn. simpl. lia.
Qed.

(** X5. A first [start()] whose endpoint never comes up never returns: with
    every connection refused, the call is still polling after any number of
    iterations, with the server spawned and no client bound. *)
Theorem LocalWorker_start_polls_forever (E : Env) (fuel : nat) (st : mstate)
    (p : Z) :
  truthy (available_port (self st)) = false ->
  reconnecting (self st) = false ->
  os_ephemeral_port E (count is_alloc (trace st)) = Some p ->
  (forall n, os_connect E (hostname (self st)) (VInt p) n = Refused) ->
  setting_extra_paths E <> PathsOther ->
  (forall args e,
     os_spawn E args (count is_spawn (trace st)) <> SpawnRaised e) ->
  exists st',
    LocalWorker_start E (S fuel) st = Fuel st' /\
    w_client (self st') = w_client (self st) /\
    count is_spawn (trace st') = S (count is_spawn (trace st)) /\
    count is_connect (trace st') = (count is_connect (trace st) + S (S fuel))%nat.
Proof.
  intros Hport Hrec Halloc Href Hpaths Hspawn.
  unfold LocalWorker_start. rewrite bind_get_self, Hport.
  simpl negb. cbv iota.
  set (st1 := {| self := set_available_port (VInt p) (self st);
                 trace := EAllocPort (Some p) :: trace st |}).
  set (h := fun error : exn => _).
  assert (H1 : forall K : unit -> M mstate unit,
    bind (let* p := LocalWorker_port E in
          modify_self (set_available_port p)) K st = K tt st1).
  { intros K.
    cbv [bind LocalWorker_port get_count emit modify_self ret].
    rewrite Halloc. reflexivity. }
  rewrite H1. rewrite try_get_self.
  change (reconnecting (self st1)) with (reconnecting (self st)).
  rewrite Hrec. cbv iota. rewrite try_bind_ret.
  set (st1' := {| self := self st1;
                  trace := ELogInfo
                           :: EConnect (hostname (self st)) (VInt p) Refused
                           :: trace st1 |}).
  destruct (build_server_returns E st1' Hpaths Hspawn)
    as (st2 & Hbuild & Hquiet & Hsp & _).
  assert (H2 : LocalWorker_start_json_server E (S fuel) st1 = Ret tt st2).
  { simpl. rewrite <- Hbuild.
    cbv [start_json_server bind server_is_active get_self get_count emit ret].
    simpl. rewrite Href. reflexivity. }
  destruct Hquiet as ((_ & Hh2 & Hp2 & _) & Hc2 & Hn2 & _).
  simpl in Hh2, Hp2, Hc2, Hn2, Hsp.
  destruct (wait_until_active_refused E (S fuel) st2)
    as (st3 & Hwait & Hself & Hn3).
  { intros n. rewrite Hh2, Hp2. apply Href. }
  exists st3. split.
  { unfold try_except. rewrite (bind_Ret _ _ _ _ _ H2).
    rewrite (bind_Fuel _ _ _ _ Hwait). reflexivity. }
  rewrite Hself, Hc2.
  assert (Hsp3 : count is_spawn (trace st3) = count is_spawn (trace st2)).
  { pose proof (local_footprint_wait E (S fuel) st2) as Hadd.
    rewrite Hwait in Hadd. simpl in Hadd.
    destruct Hadd as (l & Hl & _).
    clear - Hwait. revert st2 st3 Hwait.
    induction (S fuel) as [|f IH]; intros st2 st3 Hwait; simpl in Hwait.
    - injection Hwait as <-. reflexivity.
    - cbv [bind server_is_active get_self get_count emit ret raise] in Hwait.
      destruct (os_connect E _ _ _); try discriminate Hwait;
        apply IH in Hwait; rewrite Hwait; reflexivity. }
  rewrite Hsp3, Hsp, Hn3, Hn2. simpl. repeat split. lia.
Qed.

Lemma foreign_listener_recursion (E : Env) (depth : nat) (st : mstate)
    (c : client) (p : proc) :
  w_client (self st) = Some c ->
  process (self st) = Some p ->
  (forall n,
     os_connect E (hostname (self st)) (available_port (self st)) n
     = Connected) ->
  (forall n, os_poll E p n <> None) ->
  exists st',
    LocalWorker_start_json_server E depth st = Exc RecursionError st' /\
    self st' = self st /\
    count is_kill (trace st') = (count is_kill (trace st) + depth)%nat /\
    count is_spawn (trace st') = count is_spawn (trace st) /\
    count is_new_client (trace st') = count is_new_client (trace st).
Proof.
  intros Hc Hp Hconn Hpoll. revert st Hc Hp Hconn.
  induction depth as [|f IH]; intros st Hc Hp Hconn.
  - exists st. simpl. repeat split; lia.
  - simpl.
    cbv [start_json_server bind server_is_active get_self get_count emit ret].
    rewrite Hconn. simpl.
    cbv [server_is_healthy bind get_self get_count emit ret]. simpl.
    rewrite Hp. simpl.
    destruct (os_poll E p _) as [code|] eqn:Hcode;
      [|exfalso; exact (Hpoll _ Hcode)].
    cbv [LocalWorker_sanitize_server bind get_self emit]. simpl.
    rewrite Hc, Hp.
    match goal with
    | |- context [LocalWorker_start_json_server E f ?s] =>
      destruct (IH s Hc Hp Hconn) as (st' & Hrun & Hself & Hk & Hsp & Hnc)
    end.
    exists st'. split; [exact Hrun|]. split; [exact Hself|].
    rewrite Hk, Hsp, Hnc. simpl. repeat split; lia.
Qed.

(** X6. A [LocalWorker] whose port is held by a foreign listener (every
    connection goes through, the worker's own process has exited):
    [server_is_healthy] answers [False], and [sanitize_server] kills the
    process handle and calls [start_json_server] again, which finds the
    same, until the depth that the interpreter allows is used up.  Then
    [start_json_server] ends in [RecursionError], after one kill per level
    and without a spawn; [LocalWorker.start] (port assigned, [reconnecting]
    false) logs that exception and returns, with the worker as it was: no
    new server and no new client. *)
Theorem start_json_server_foreign_listener (E : Env) (depth : nat)
    (st : mstate) (c : client) (p : proc) :
  w_client (self st) = Some c ->
  process (self st) = Some p ->
  (forall n,
     os_connect E (hostname (self st)) (available_port (self st)) n
     = Connected) ->
  (forall n, os_poll E p n <> None) ->
  (exists st',
     LocalWorker_start_json_server E depth st = Exc RecursionError st' /\
     self st' = self st /\
     count is_kill (trace st') = (count is_kill (trace st) + depth)%nat /\
     count is_spawn (trace st') = count is_spawn (trace st)) /\
  (truthy (available_port (self st)) = true ->
   reconnecting (self st) = false ->
   exists st',
     LocalWorker_start E depth st = Ret tt st' /\
     self st' = self st /\
     count is_kill (trace st') = (count is_kill (trace st) + depth)%nat /\
     count is_spawn (trace st') = count is_spawn (trace st) /\
     count is_new_client (trace st') = count is_new_client (trace st)).
Proof.
  intros Hc Hp Hconn Hpoll.
  destruct (foreign_listener_recursion E depth st c p Hc Hp Hconn Hpoll)
    as (st1 & Hrun & Hself & Hk & Hsp & Hnc).
  split.
  - exists st1. repeat split; assumption.
  - intros Hport Hrec.
    exists {| self := self st1; trace := ELogError :: ELogError :: trace st1 |}.
    split.
    + unfold LocalWorker_start. rewrite bind_get_self, Hport.
      simpl negb. cbv iota. rewrite bind_ret.
      rewrite try_get_self, Hrec. cbv iota. rewrite try_bind_ret.
      unfold try_except. rewrite (bind_Exc _ _ _ _ _ Hrun). reflexivity.
    + simpl. repeat split; assumption.
Qed.

(** ** Reconnection *)

Lemma build_footprint (E : Env) :
  stable (adds build_event) (LocalWorker_build_server E).
Proof. unfold LocalWorker_build_server. stable_struct adds_side. Qed.

(** [start()] on a [LocalWorker] with [reconnecting] set: a port [p] is
    allocated, a server is spawned for it and a client is constructed with
    it; nothing is killed and nothing is closed. *)
Lemma LocalWorker_start_rebinds (E : Env) (fuel k : nat) (st : mstate)
    (p : Z) :
  truthy (available_port (self st)) = true ->
  reconnecting (self st) = true ->
  os_ephemeral_port E (count is_alloc (trace st)) = Some p ->
  (forall i, (i <= k)%nat ->
     os_connect E (hostname (self st)) (VInt p)
       (count is_connect (trace st) + i) = Refused) ->
  os_connect E (hostname (self st)) (VInt p)
    (count is_connect (trace st) + S k) = Connected ->
  setting_extra_paths E <> PathsOther ->
  (forall args e,
     os_spawn E args (count is_spawn (trace st)) <> SpawnRaised e) ->
  (k < fuel)%nat ->
  exists st',
    LocalWorker_start E fuel st = Ret tt st' /\
    available_port (self st') = VInt p /\
    reconnecting (self st') = true /\
    w_client (self st')
    = Some (Client (count is_new_client (trace st)) (VInt p)) /\
    count is_spawn (trace st') = S (count is_spawn (trace st)) /\
    count is_kill (trace st') = count is_kill (trace st) /\
    count is_close (trace st') = count is_close (trace st) /\
    count is_send (trace st') = count is_send (trace st).
Proof.
  intros Hport Hrec Halloc Href Hconn Hpaths Hspawn Hfuel.
  unfold LocalWorker_start. rewrite bind_get_self, Hport.
  simpl negb. cbv iota. rewrite bind_ret.
  set (st1 := {| self := set_available_port (VInt p) (self st);
                 trace := EAllocPort (Some p) :: trace st |}).
  set (h := fun error : exn => _).
  rewrite try_get_self, Hrec. cbv iota.
  assert (H1 : forall K : unit -> M mstate unit,
    try_except
      (bind (let* p := LocalWorker_port E in
             modify_self (set_available_port p)) K) h st
    = try_except (K tt) h st1).
  { intros K.
    cbv [try_except bind LocalWorker_port get_count emit modify_self ret].
    rewrite Halloc. reflexivity. }
  rewrite H1.
  set (st1' := {| self := self st1;
                  trace := ELogInfo
                           :: EConnect (hostname (self st)) (VInt p) Refused
                           :: trace st1 |}).
  destruct (build_server_returns E st1' Hpaths Hspawn)
    as (st2 & Hbuild & Hquiet & Hsp2 & Hk2 & _).
  assert (Hcl2 : count is_close (trace st2) = count is_close (trace st1')).
  { pose proof (build_footprint E st1') as Hadd. rewrite Hbuild in Hadd.
    apply (count_adds build_event); [|exact Hadd].
    intros []; simpl; congruence. }
  assert (H2 : LocalWorker_start_json_server E fuel st1 = Ret tt st2).
  { destruct fuel as [|f]; [lia|]. simpl.
    rewrite <- Hbuild.
    cbv [start_json_server bind server_is_active get_self get_count emit ret].
    simpl. pose proof (Href 0%nat ltac:(lia)) as H0.
    rewrite Nat.add_0_r in H0. rewrite H0. reflexivity. }
  destruct Hquiet as ((_ & Hh2 & Hp2 & Hr2 & _) & Hc2 & Hn2 & Hnc2 & Hs2).
  simpl in Hh2, Hp2, Hr2, Hc2, Hn2, Hnc2, Hs2, Hsp2, Hk2, Hcl2.
  assert (H3 : wait_until_active E fuel st2
               = Ret tt
                   {| self := self st2;
                      trace :=
                        EConnect (hostname (self st)) (VInt p) Connected
                        :: polled (hostname (self st)) (VInt p) k
                             (trace st2) |}).
  { rewrite (wait_until_active_returns E k fuel st2);
      rewrite ?Hh2, ?Hp2, ?Hn2; try reflexivity; try assumption.
    - intros i Hi. rewrite Nat.add_succ_l, <- Nat.add_succ_r.
      apply Href. lia.
    - rewrite Nat.add_succ_l, <- Nat.add_succ_r. exact Hconn. }
  eexists. split.
  { apply try_except_Ret.
    rewrite (bind_Ret _ _ _ _ _ H2). rewrite (bind_Ret _ _ _ _ _ H3).
    cbv [bind get_self AsynClient get_count emit modify_self ret].
    reflexivity. }
  simpl. rewrite !count_polled. simpl.
  rewrite Hp2, Hr2, Hnc2, Hs2, Hsp2, Hk2, Hcl2, Hrec.
  rewrite !Nat.mul_0_r. simpl.
  repeat split; reflexivity.
Qed.

(** X7. [LocalWorker._execute] when the bound client reports disconnected
    and the restart goes through: [reconnecting] is set, a new port is
    allocated, a second server is spawned (the old process is not killed and
    the old client is not closed), and the command is sent, once, through
    the client constructed for the new port. *)
Theorem LocalWorker_execute_reconnects (E : Env) (fuel k : nat) (st : mstate)
    (c0 : client) (p : Z) callback data :
  w_client (self st) = Some c0 ->
  rpc_connected E c0 (count is_connected_query (trace st)) = false ->
  truthy (available_port (self st)) = true ->
  os_ephemeral_port E (count is_alloc (trace st)) = Some p ->
  (forall i, (i <= k)%nat ->
     os_connect E (hostname (self st)) (VInt p)
       (count is_connect (trace st) + i) = Refused) ->
  os_connect E (hostname (self st)) (VInt p)
    (count is_connect (trace st) + S k) = Connected ->
  setting_extra_paths E <> PathsOther ->
  (forall args e,
     os_spawn E args (count is_spawn (trace st)) <> SpawnRaised e) ->
  (k < fuel)%nat ->
  exists st' tr,
    let c := Client (count is_new_client (trace st)) (VInt p) in
    LocalWorker_execute E fuel callback data st = Ret tt st' /\
    trace st' = ESend c callback data :: tr /\
    count is_send tr = count is_send (trace st) /\
    w_client (self st') = Some c /\
    available_port (self st') = VInt p /\
    reconnecting (self st') = true /\
    count is_spawn (trace st') = S (count is_spawn (trace st)) /\
    count is_kill (trace st') = count is_kill (trace st) /\
    count is_close (trace st') = count is_close (trace st).
Proof.
  intros Hc Hdis Hport Halloc Href Hconn Hpaths Hspawn Hfuel.
  set (st1 := {| self := set_reconnecting true (self st);
                 trace := EConnectedQuery c0 :: trace st |}).
  destruct (LocalWorker_start_rebinds E fuel k st1 p)
    as (st2 & Hstart & Hp2 & Hr2 & Hc2 & Hsp2 & Hk2 & Hcl2 & Hs2);
    try assumption; try reflexivity.
  simpl in Hc2, Hsp2, Hk2, Hcl2, Hs2.
  exists {| self := self st2;
            trace := ESend (Client (count is_new_client (trace st)) (VInt p))
                       callback data :: trace st2 |}, (trace st2).
  cbv zeta. split.
  { unfold LocalWorker_execute. rewrite bind_get_self, Hc.
    cbv [bind client_connected get_count emit ret modify_self]. simpl.
    rewrite Hdis. simpl. fold st1. rewrite Hstart.
    cbv [get_self send_command emit]. rewrite Hc2. reflexivity. }
  simpl. rewrite Hsp2, Hk2, Hcl2, Hs2. repeat split; assumption.
Qed.

(** ** RemoteWorker: the configuration *)

Lemma check_config_on_dict (st : mstate) (d nd : list (string * value)) :
  config (self st) = VDict d ->
  assoc "network" d = Some (VDict nd) ->
  let ok :=
    truthy (default VNone (assoc "directory" d))
    && truthy (VDict nd)
    && negb (is_none (default VNone (assoc "mode" nd)))
    && negb (is_none (default VNone (assoc "port" nd))) in
  RemoteWorker_check_config st
  = Ret ok
      (if ok then st
       else {| self := set_support (Some false) (self st);
               trace := EErrorMessage :: trace st |}).
Proof.
  intros Hcfg Hnet. cbv zeta.
  unfold RemoteWorker_check_config. rewrite bind_get_self, Hcfg.
  cbv [py_get py_getitem lift_exn bind ret emit modify_self]. rewrite Hnet.
  destruct st as [w tr].
  destruct (assoc "directory" d) as [dir|];
    destruct (assoc "mode" nd) as [mode|] eqn:Hmode;
    destruct (assoc "port" nd) as [port|] eqn:Hport;
    destruct nd as [|kv nd]; try discriminate;
    cbn [default from_option id];
    try destruct (truthy dir); try destruct mode; try destruct port;
    reflexivity.
Qed.

Lemma check_config_no_network (st : mstate) (d : list (string * value)) :
  config (self st) = VDict d ->
  (assoc "network" d = None ->
   RemoteWorker_check_config st = Exc KeyError st) /\
  (forall v,
     assoc "network" d = Some v ->
     (forall nd, v <> VDict nd) ->
     RemoteWorker_check_config st = Exc AttributeError st).
Proof.
  intros Hcfg. split.
  - intros Hnet. unfold RemoteWorker_check_config.
    rewrite bind_get_self, Hcfg.
    cbv [py_get py_getitem lift_exn bind ret raise]. rewrite Hnet.
    destruct (assoc "directory" d) as [dir|]; simpl;
      try destruct (truthy dir); reflexivity.
  - intros v Hnet Hv. unfold RemoteWorker_check_config.
    rewrite bind_get_self, Hcfg.
    cbv [py_get py_getitem lift_exn bind ret raise]. rewrite Hnet.
    destruct v as [|z|s|nd]; [| | |exfalso; exact (Hv nd eq_refl)];
      destruct (assoc "directory" d) as [dir|]; simpl;
      try destruct (truthy dir); simpl;
      try destruct (negb (z =? 0)); try destruct (negb (String.eqb s ""));
      reflexivity.
Qed.

(** X8. [check_config] on a configuration whose [network] entry is a
    dictionary: it returns [True] exactly when [directory] and [network]
    are truthy and [network] holds a [mode] and a [port] other than [None];
    then it changes nothing.  Otherwise it shows the error dialog once and
    sets [support] to [False]. *)
Theorem check_config_result (st : mstate) (d nd : list (string * value)) :
  config (self st) = VDict d ->
  assoc "network" d = Some (VDict nd) ->
  let ok :=
    truthy (default VNone (assoc "directory" d))
    && truthy (VDict nd)
    && negb (is_none (default VNone (assoc "mode" nd)))
    && negb (is_none (default VNone (assoc "port" nd))) in
  RemoteWorker_check_config st
  = Ret ok
      (if ok then st
       else {| self := set_support (Some false) (self st);
               trace := EErrorMessage :: trace st |}).
Proof. exact (check_config_on_dict st d nd). Qed.

(** X9. A configuration without a usable [network] entry is not reported
    as invalid: when the key is missing [check_config] raises [KeyError],
    and when the entry is no dictionary it raises [AttributeError]; in both
    cases no dialog is shown and [support] is not set. *)
Theorem check_config_network_raises (st : mstate) (d : list (string * value)) :
  config (self st) = VDict d ->
  (assoc "network" d = None ->
   RemoteWorker_check_config st = Exc KeyError st) /\
  (forall v,
     assoc "network" d = Some v ->
     (forall nd, v <> VDict nd) ->
     RemoteWorker_check_config st = Exc AttributeError st).
Proof. exact (check_config_no_network st d). Qed.

(** X10. After [check_config] has returned [True], the property [port]
    yields the configured value, which is not [None]: the default 19360 is
    only ever used for a configuration that [check_config] has reported
    invalid. *)
Theorem port_of_checked_config (st st1 : mstate) :
  RemoteWorker_check_config st = Ret true st1 ->
  exists d nd v,
    config (self st1) = VDict d /\
    assoc "network" d = Some (VDict nd) /\
    assoc "port" nd = Some v /\
    v <> VNone /\
    RemoteWorker_port st1 = Ret v st1.
Proof.
  intros Hrun.
  destruct (config (self st)) as [| | |d] eqn:Hcfg;
    try (unfold RemoteWorker_check_config in Hrun;
         rewrite bind_get_self, Hcfg in Hrun; discriminate Hrun).
  destruct (assoc "network" d) as [v|] eqn:Hnet.
  2: { rewrite (proj1 (check_config_no_network st d Hcfg) Hnet) in Hrun.
       discriminate Hrun. }
  destruct v as [|z|s|nd];
    try (rewrite (proj2 (check_config_no_network st d Hcfg) _ Hnet) in Hrun;
         [discriminate Hrun|intros nd; discriminate]).
  rewrite (check_config_on_dict st d nd Hcfg Hnet) in Hrun. cbv zeta in Hrun.
  injection Hrun as Hok Hst.
  rewrite Hok in Hst. subst st1.
  apply andb_prop in Hok as [Hok Hport].
  destruct (assoc "port" nd) as [v|] eqn:Hp; [|discriminate Hport].
  exists d, nd, v. repeat split; try assumption.
  - intros ->. discriminate Hport.
  - unfold RemoteWorker_port. rewrite bind_get_self, Hcfg.
    cbv [py_get py_getitem lift_exn bind ret]. rewrite Hnet, Hp. reflexivity.
Qed.

(** ** RemoteWorker.start *)

(** X11. [RemoteWorker.start] on a worker marked unsupported, or whose
    configured directory does not exist, shows the error dialog and returns:
    it connects to nothing and binds no client. *)
Theorem RemoteWorker_start_gated (E : Env) (fuel : nat) (st : mstate) :
  (support (self st) = Some false ->
   RemoteWorker_start E fuel st
   = Ret tt {| self := set_support (Some false) (self st);
               trace := EErrorMessage :: trace st |}) /\
  (forall d,
     support (self st) = Some true ->
     py_getitem (config (self st)) "directory" = inr (VStr d) ->
     fs_exists E d = false ->
     RemoteWorker_start E fuel st
     = Ret tt {| self := self st; trace := EErrorMessage :: trace st |}).
Proof.
  split.
  - intros Hs. unfold RemoteWorker_start. rewrite bind_get_self, Hs.
    reflexivity.
  - intros d Hs Hd Hfs. unfold RemoteWorker_start.
    rewrite bind_get_self, Hs, Hd. cbv [lift_exn]. rewrite bind_ret, Hfs.
    reflexivity.
Qed.

Lemma RemoteWorker_wait_returns (E : Env) (k fuel : nat) (st : mstate) :
  support (self st) = Some true ->
  (forall i, (i < k)%nat ->
     os_connect E (hostname (self st)) (available_port (self st))
       (count is_connect (trace st) + i) = Refused) ->
  os_connect E (hostname (self st)) (available_port (self st))
    (count is_connect (trace st) + k) = Connected ->
  (k < fuel)%nat ->
  RemoteWorker_wait E fuel st
  = Ret true
      {| self := self st;
         trace :=
           EConnect (hostname (self st)) (available_port (self st)) Connected
           :: polled (hostname (self st)) (available_port (self st)) k
                (trace st) |}.
Proof.
  revert fuel st. induction k as [|k IH]; intros fuel st Hs Href Hconn Hfuel.
  - destruct fuel as [|fuel]; [lia|]. simpl.
    rewrite Nat.add_0_r in Hconn.
    cbv [bind server_is_active get_self get_count emit ret].
    rewrite Hconn. reflexivity.
  - destruct fuel as [|fuel]; [lia|]. simpl.
    pose proof (Href 0%nat ltac:(lia)) as H0. rewrite Nat.add_0_r in H0.
    set (st1 := {| self := self st;
                   trace := ESleep :: EConnect (hostname (self st))
                              (available_port (self st)) Refused
                              :: trace st |}).
    assert (Hstep : RemoteWorker_wait E (S fuel) st
                    = RemoteWorker_wait E fuel st1).
    { simpl.
      cbv [bind server_is_active get_self get_count emit ret].
      rewrite H0. simpl. rewrite Hs. reflexivity. }
    simpl in Hstep. rewrite Hstep.
    rewrite (IH fuel st1).
    + reflexivity.
    + exact Hs.
    + intros i Hi. simpl. rewrite <- Nat.add_succ_r. apply Href. lia.
    + simpl. rewrite <- Nat.add_succ_r. exact Hconn.
    + lia.
Qed.

(** X12. [RemoteWorker.start] on a supported worker whose directory exists,
    when [k] connections are refused and the next goes through: it spawns
    nothing, polls [k + 1] times and binds a client constructed with the
    configured port. *)
Theorem RemoteWorker_start_binds (E : Env) (fuel k : nat) (st : mstate)
    (d : string) :
  support (self st) = Some true ->
  py_getitem (config (self st)) "directory" = inr (VStr d) ->
  fs_exists E d = true ->
  (forall i, (i < k)%nat ->
     os_connect E (hostname (self st)) (available_port (self st))
       (count is_connect (trace st) + i) = Refused) ->
  os_connect E (hostname (self st)) (available_port (self st))
    (count is_connect (trace st) + k) = Connected ->
  (k < fuel)%nat ->
  let c := Client (count is_new_client (trace st)) (available_port (self st)) in
  RemoteWorker_start E fuel st
  = Ret tt
      {| self := set_client (Some c) (self st);
         trace :=
           ENewClient c
           :: EConnect (hostname (self st)) (available_port (self st))
                Connected
           :: polled (hostname (self st)) (available_port (self st)) k
                (trace st) |}.
Proof.
  intros Hs Hd Hfs Href Hconn Hfuel c.
  unfold RemoteWorker_start. rewrite bind_get_self, Hs, Hd.
  cbv [lift_exn]. rewrite bind_ret, Hfs. cbn [negb].
  rewrite (bind_Ret _ _ _ _ _
             (RemoteWorker_wait_returns E k fuel st Hs Href Hconn Hfuel)).
  cbv [bind get_self AsynClient get_count emit modify_self ret]. simpl.
  rewrite count_polled. simpl. rewrite Nat.mul_0_r. reflexivity.
Qed.

(** ** The registry *)

Lemma no_Ret_bind_l {S A B} (m : M S A) (k : A -> M S B) :
  no_Ret m -> no_Ret (bind m k).
Proof.
  intros Hm s. unfold bind. specialize (Hm s).
  destruct (m s); [contradiction|exact I|exact I].
Qed.

Lemma no_Ret_bind_r {S A B} (m : M S A) (k : A -> M S B) :
  (forall a, no_Ret (k a)) -> no_Ret (bind m k).
Proof.
  intros Hk s. unfold bind.
  destruct (m s) as [a s'|e s'|s']; [apply Hk|exact I|exact I].
Qed.

Lemma no_Ret_check_status (E : Env) (fuel : nat) :
  no_Ret (RemoteWorker_check_status E fuel).
Proof.
  unfold RemoteWorker_check_status. cbv zeta.
  do 4 (apply no_Ret_bind_r; intros ?).
  intros s.
  match goal with
  | |- match check_status_wait ?f ?r ?i false ?s with _ => _ end =>
    destruct (check_status_wait_diverges f r i s) as (s' & -> & _)
  end.
  exact I.
Qed.

Lemma no_Ret_RemoteWorker_init (E : Env) (fuel : nat) (cfg : value) :
  no_Ret (RemoteWorker_init E fuel cfg).
Proof.
  unfold RemoteWorker_init, RemoteWorker_init_with.
  do 8 (apply no_Ret_bind_r; intros ?).
  apply no_Ret_bind_l. apply no_Ret_check_status.
Qed.

Lemma init_footprint_wait fuel report i checked :
  stable (adds remote_init_event) (check_status_wait fuel report i checked).
Proof.
  revert i. induction fuel as [|f IH]; intros i; simpl;
    stable_struct adds_side.
Qed.

Lemma init_footprint (E : Env) (fuel : nat) (cfg : value) :
  stable (adds remote_init_event) (RemoteWorker_init E fuel cfg).
Proof.
  unfold RemoteWorker_init, RemoteWorker_init_with, RemoteWorker_check_config,
    RemoteWorker_port, RemoteWorker_check_status.
  stable_struct adds_side; apply init_footprint_wait.
Qed.

Lemma Worker_start_sends_nothing (E : Env) (fuel : nat) (st : mstate) :
  count is_send (trace (final (Worker_start E fuel st)))
  = count is_send (trace st).
Proof.
  unfold Worker_start. rewrite bind_get_self.
  destruct (kind (self st)).
  - apply (count_adds local_start_event);
      [intros []; simpl; congruence|apply local_footprint_start].
  - apply (count_adds remote_start_event);
      [intros []; simpl; congruence|apply remote_footprint_start].
Qed.

Lemma Worker_execute_existing (E : Env) (fuel : nat) (window_id : Z)
    (vagrant_environment : value) callback data (g : gstate) (w : worker) :
  WORKERS g !! window_id = Some w ->
  Worker_execute E fuel window_id vagrant_environment callback data g
  = on_worker window_id (execute_on_worker E fuel callback data) g.
Proof.
  intros Hw. unfold Worker_execute.
  change (bind get_WORKERS ?k g) with (k (WORKERS g) g). cbv beta.
  rewrite Hw. reflexivity.
Qed.

Lemma Worker_execute_local_new (E : Env) (fuel : nat) (window_id : Z)
    (vagrant_environment : value) callback data (g : gstate) :
  WORKERS g !! window_id = None ->
  vagrant_is_active vagrant_environment = false ->
  Worker_execute E fuel window_id vagrant_environment callback data g
  = on_worker window_id (execute_on_worker E fuel callback data)
      {| WORKERS := <[window_id := BaseWorker_init LocalWorker]> (WORKERS g);
         gtrace := gtrace g |}.
Proof.
  intros Hw Hv. unfold Worker_execute.
  change (bind get_WORKERS ?k g) with (k (WORKERS g) g). cbv beta.
  rewrite Hw, Hv. reflexivity.
Qed.

(** With a [vagrant_environment] and no worker for the window, [execute]
    ends in [KeyError] or is still in the constructor; the dictionary is as
    before and nothing was sent. *)
Lemma Worker_execute_remote_new (E : Env) (fuel : nat) (window_id : Z)
    (vagrant_environment : value) callback data (g : gstate) :
  WORKERS g !! window_id = None ->
  vagrant_is_active vagrant_environment = true ->
  exists tr',
    (Worker_execute E fuel window_id vagrant_environment callback data g
     = Exc KeyError {| WORKERS := WORKERS g; gtrace := tr' |} \/
     Worker_execute E fuel window_id vagrant_environment callback data g
     = Fuel {| WORKERS := WORKERS g; gtrace := tr' |}) /\
    count is_send tr' = count is_send (gtrace g).
Proof.
  intros Hw Hv. unfold Worker_execute.
  change (bind get_WORKERS ?k g) with (k (WORKERS g) g). cbv beta.
  rewrite Hw, Hv.
  set (st0 := {| self := BaseWorker_init RemoteWorker; trace := gtrace g |}).
  pose proof (no_Ret_RemoteWorker_init E fuel vagrant_environment st0) as Hno.
  pose proof (init_footprint E fuel vagrant_environment st0) as Hadd.
  assert (Hsend : count is_send
                    (trace (final (RemoteWorker_init E fuel
                                     vagrant_environment st0)))
                  = count is_send (gtrace g)).
  { apply (count_adds remote_init_event _ st0);
      [intros []; simpl; congruence|exact Hadd]. }
  cbv [bind try_except construct store gemit on_worker ret].
  fold st0.
  destruct (RemoteWorker_init E fuel vagrant_environment st0)
    as [a st1|e st1|st1]; [contradiction| |]; simpl in *.
  - rewrite Hw. eexists. split; [left; reflexivity|]. simpl. exact Hsend.
  - eexists. split; [right; reflexivity|]. exact Hsend.
Qed.

Lemma execute_on_worker_sends (E : Env) (fuel : nat) callback data
    (st : mstate) :
  let st' := final (execute_on_worker E fuel callback data st) in
  count is_send (trace st') = count is_send (trace st) \/
  exists c,
    w_client (self st) = Some c /\
    rpc_connected E c (count is_connected_query (trace st)) = true /\
    trace st' = ESend c callback data :: EConnectedQuery c :: trace st.
Proof.
  cbv zeta. unfold execute_on_worker. rewrite bind_get_self.
  destruct (w_client (self st)) as [c|] eqn:Hc.
  - cbv [bind client_connected get_count emit ret]. simpl.
    destruct (rpc_connected E c (count is_connected_query (trace st)))
      eqn:Hconn; simpl.
    + right. exists c. repeat split. exact Hconn.
    + left. cbv [modify_self]. rewrite Worker_start_sends_nothing.
      reflexivity.
  - left. apply Worker_start_sends_nothing.
Qed.

(** X13. A call of the registry's [execute], however it ends, sends at most
    one command, and it sends one only when the window already has a worker
    whose client reports connected: then the trace grows by the query and
    the send alone.  In every other case (first call, reconnection, failed
    construction) the command of the call is not sent. *)
Theorem Worker_execute_sends_at_most_once (E : Env) (fuel : nat)
    (window_id : Z) (vagrant_environment : value) callback data (g : gstate) :
  let g' :=
    final (Worker_execute E fuel window_id vagrant_environment callback data
             g) in
  count is_send (gtrace g') = count is_send (gtrace g) \/
  exists w c,
    WORKERS g !! window_id = Some w /\
    w_client w = Some c /\
    rpc_connected E c (count is_connected_query (gtrace g)) = true /\
    gtrace g' = ESend c callback data :: EConnectedQuery c :: gtrace g.
Proof.
  cbv zeta.
  destruct (WORKERS g !! window_id) as [w|] eqn:Hw.
  - rewrite (Worker_execute_existing E fuel window_id _ callback data g w Hw).
    unfold on_worker. rewrite Hw.
    pose proof (execute_on_worker_sends E fuel callback data
                  {| self := w; trace := gtrace g |}) as H.
    cbv zeta in H. simpl in H.
    destruct (execute_on_worker E fuel callback data _); simpl in *;
      (destruct H as [H|(c & Hc & Hconn & H)];
       [left; exact H|right; exists w, c; auto]).
  - left. destruct (vagrant_is_active vagrant_environment) eqn:Hv.
    + destruct (Worker_execute_remote_new E fuel window_id
                  vagrant_environment callback data g Hw Hv)
        as (tr' & [-> | ->] & Hs); exact Hs.
    + rewrite (Worker_execute_local_new E fuel window_id _ callback data g
                 Hw Hv).
      unfold on_worker. simpl. rewrite lookup_insert_eq.
      pose proof (execute_on_worker_sends E fuel callback data
                    {| self := BaseWorker_init LocalWorker;
                       trace := gtrace g |}) as H.
      cbv zeta in H. simpl in H.
      destruct (execute_on_worker E fuel callback data _); simpl in *;
        (destruct H as [H|(c & Hc & _)]; [exact H|discriminate Hc]).
Qed.

(** X14. With a [vagrant_environment] set and no worker for the window, a
    call of [execute] never returns and never registers a worker: whatever
    the configuration, the environment and the fuel, it raises [KeyError] or
    is still inside the constructor, and [WORKERS] is as before. *)
Theorem Worker_execute_remote_never_registers (E : Env) (fuel : nat)
    (window_id : Z) (vagrant_environment : value) callback data (g : gstate) :
  WORKERS g !! window_id = None ->
  vagrant_is_active vagrant_environment = true ->
  let r :=
    Worker_execute E fuel window_id vagrant_environment callback data g in
  WORKERS (final r) = WORKERS g /\
  match r with
  | Ret _ _ => False
  | Exc e _ => e = KeyError
  | Fuel _ => True
  end.
Proof.
  intros Hw Hv.
  destruct (Worker_execute_remote_new E fuel window_id vagrant_environment
              callback data g Hw Hv) as (tr' & [H | H] & _);
    cbv zeta; rewrite H; simpl; auto.
Qed.

Lemma same_kind_refl st : same_kind st st.
Proof. reflexivity. Qed.

Lemma same_kind_trans st1 st2 st3 :
  same_kind st1 st2 -> same_kind st2 st3 -> same_kind st1 st3.
Proof. unfold same_kind. congruence. Qed.

Lemma same_kind_emit e : stable same_kind (emit e).
Proof. intros st. reflexivity. Qed.

Lemma same_kind_modify (f : worker -> worker) :
  (forall w, kind (f w) = kind w) -> stable same_kind (modify_self f).
Proof. intros Hf st. apply Hf. Qed.

Ltac kind_side :=
  first
    [ exact same_kind_refl
    | exact same_kind_trans
    | intros; apply same_kind_emit
    | intros; apply same_kind_modify; intros ?; reflexivity ].

Lemma same_kind_execute_on_worker (E : Env) (fuel : nat) callback data :
  stable same_kind (execute_on_worker E fuel callback data).
Proof.
  assert (Hport : stable same_kind (LocalWorker_port E))
    by (unfold LocalWorker_port; stable_by kind_side).
  assert (Hlocal : stable same_kind (LocalWorker_start E fuel))
    by (unfold LocalWorker_start; stable_by kind_side).
  assert (Hstart : stable same_kind (Worker_start E fuel))
    by (unfold Worker_start; stable_by kind_side).
  unfold execute_on_worker. stable_by kind_side.
Qed.

(** X15. A call of the registry's [execute], however it ends, leaves the
    entries of all other windows as they were, and a window that had a
    worker still has one, of the same class: entries are neither deleted
    nor replaced. *)
Theorem Worker_execute_registry_frame (E : Env) (fuel : nat) (window_id : Z)
    (vagrant_environment : value) callback data (g : gstate) :
  let g' :=
    final (Worker_execute E fuel window_id vagrant_environment callback data
             g) in
  (forall id, id <> window_id -> WORKERS g' !! id = WORKERS g !! id) /\
  (forall w,
     WORKERS g !! window_id = Some w ->
     exists w', WORKERS g' !! window_id = Some w' /\ kind w' = kind w).
Proof.
  cbv zeta.
  destruct (WORKERS g !! window_id) as [w|] eqn:Hw.
  - rewrite (Worker_execute_existing E fuel window_id _ callback data g w Hw).
    unfold on_worker. rewrite Hw.
    pose proof (same_kind_execute_on_worker E fuel callback data
                  {| self := w; trace := gtrace g |}) as Hk.
    unfold same_kind in Hk. simpl in Hk.
    destruct (execute_on_worker E fuel callback data _); simpl in *;
      (split;
       [intros id Hne; rewrite lookup_insert_ne by congruence; reflexivity
       |intros w0 [= <-]; rewrite lookup_insert_eq; eauto]).
  - split; [|discriminate].
    destruct (vagrant_is_active vagrant_environment) eqn:Hv.
    + destruct (Worker_execute_remote_new E fuel window_id
                  vagrant_environment callback data g Hw Hv)
        as (tr' & [-> | ->] & _); reflexivity.
    + rewrite (Worker_execute_local_new E fuel window_id _ callback data g
                 Hw Hv).
      unfold on_worker. simpl. rewrite lookup_insert_eq.
      intros id Hne.
      destruct (execute_on_worker E fuel callback data _); simpl;
        rewrite !lookup_insert_ne by congruence; reflexivity.
Qed.

(** ** build_server: the extra paths *)

Lemma split_comma_nonempty (s : string) : split_comma s <> [].
Proof.
  destruct s as [|c s]; simpl; [discriminate|].
  destruct (Ascii.eqb c (Ascii.ascii_of_nat 44)); [discriminate|].
  destruct (split_comma s); discriminate.
Qed.

Lemma concat_split_comma (s : string) :
  String.concat "," (split_comma s) = s.
Proof.
  induction s as [|c s IH]; [reflexivity|]. simpl.
  destruct (Ascii.eqb c (Ascii.ascii_of_nat 44)) eqn:Hc.
  - apply Ascii.eqb_eq in Hc. subst c.
    pose proof (split_comma_nonempty s) as Hne.
    simpl. destruct (split_comma s) as [|x r]; [contradiction|].
    rewrite <- IH. reflexivity.
  - pose proof (split_comma_nonempty s) as Hne.
    destruct (split_comma s) as [|x r]; [contradiction|].
    rewrite <- IH. simpl. destruct r; reflexivity.
Qed.

(** X16. [build_server] with an [extra_paths] setting that is a string and
    a window without folders: after the error dialog the string is split at
    the commas and joined again, so the server is spawned with [-e] followed
    by the string as it was configured.  The interpreter is the
    [python_interpreter] setting with its [~] expanded, or [python] when
    that setting cannot be read. *)
Theorem build_server_string_paths (E : Env) (st : mstate) (s : string) :
  setting_extra_paths E = PathsStr s ->
  window_folders E = [] ->
  let python :=
    match setting_python_interpreter E with
    | Some interpreter => expanduser E interpreter
    | None => "python"
    end in
  let args :=
    [python; "-B"; the_script_file E; "-p"; the_project_name E;
     py_str (available_port (self st)); "-e"; s; py_str (VInt (the_pid E))] in
  trace (final (LocalWorker_build_server E st))
  = ESpawn args :: EErrorMessage :: trace st.
Proof.
  intros Hpaths Hfolders. cbv zeta.
  cbv [LocalWorker_build_server bind get_self get_count emit ret raise
       modify_self].
  rewrite Hpaths, Hfolders. cbv beta iota. rewrite app_nil_r.
  pose proof (split_comma_nonempty s) as Hne.
  pose proof (concat_split_comma s) as Hcat.
  destruct (split_comma s) as [|x r]; [contradiction|].
  rewrite Hcat. simpl.
  destruct (os_spawn E _ _); reflexivity.
Qed.

(** ** The further properties in the scenarios *)

(** X4: everything connects at once. *)
Lemma LocalWorker_start_port_taken_witness :
  exists st',
    LocalWorker_start (with_connect_all Connected local_env) 1
      (new_object LocalWorker) = Ret tt st' /\
    w_client (self st') = None /\
    process (self st') = None.
Proof.
  eexists. split.
  - apply (LocalWorker_start_port_taken (with_connect_all Connected local_env)
             0 (new_object LocalWorker) 54321); reflexivity.
  - split; reflexivity.
Defined.

(** X5: nothing ever connects. *)
Lemma LocalWorker_start_polls_forever_witness :
  exists st',
    LocalWorker_start (with_connect_all Refused local_env) 8
      (new_object LocalWorker) = Fuel st' /\
    w_client (self st') = None.
Proof.
  destruct (LocalWorker_start_polls_forever
              (with_connect_all Refused local_env) 7 (new_object LocalWorker)
              54321)
    as (st' & Hrun & Hc & _).
  - reflexivity.
  - reflexivity.
  - reflexivity.
  - reflexivity.
  - discriminate.
  - discriminate.
  - exists st'. split; [exact Hrun|exact Hc].
Defined.

(** X6: the started worker, its process gone and the port answering, with
    a depth of 6 left. *)
Lemma start_json_server_foreign_listener_witness :
  (exists st',
     LocalWorker_start_json_server
       (with_exit_code 1 (with_connect_all Connected local_env)) 6
       started_worker = Exc RecursionError st' /\
     count is_kill (trace st') = 6%nat /\
     count is_spawn (trace st') = 1%nat) /\
  (exists st',
     LocalWorker_start
       (with_exit_code 1 (with_connect_all Connected local_env)) 6
       started_worker = Ret tt st' /\
     self st' = self started_worker /\
     count is_kill (trace st') = 6%nat /\
     count is_spawn (trace st') = 1%nat).
Proof.
  destruct (start_json_server_foreign_listener
              (with_exit_code 1 (with_connect_all Connected local_env)) 6
              started_worker (Client 0 (VInt 54321)) 0%nat)
    as ((st1 & Hrun1 & _ & Hk1 & Hs1) & Hstart).
  - reflexivity.
  - reflexivity.
  - reflexivity.
  - discriminate.
  - split.
    + exists st1. split; [exact Hrun1|]. split; [exact Hk1|exact Hs1].
    + destruct Hstart as (st2 & Hrun2 & Hself & Hk2 & Hs2 & _);
        [reflexivity|reflexivity|].
      exists st2. split; [exact Hrun2|]. split; [exact Hself|].
      split; [exact Hk2|exact Hs2].
Defined.

(** X7: the started worker, its client disconnected; the new endpoint comes
    up after one refused probe. *)
Lemma LocalWorker_execute_reconnects_witness :
  exists st' tr,
    LocalWorker_execute (with_rpc_connected false respawn_env) 2 "lint"
      lint_data started_worker = Ret tt st' /\
    trace st' = ESend (Client 1 (VInt 54322)) "lint" lint_data :: tr /\
    available_port (self st') = VInt 54322 /\
    count is_kill (trace st') = 0%nat.
Proof.
  destruct (LocalWorker_execute_reconnects
              (with_rpc_connected false respawn_env) 2 0 started_worker
              (Client 0 (VInt 54321)) 54322 "lint" lint_data)
    as (st' & tr & Hrun & Htr & _ & _ & Hp & _ & _ & Hk & _).
  - reflexivity.
  - reflexivity.
  - reflexivity.
  - reflexivity.
  - intros i Hi. destruct i as [|i]; [reflexivity|lia].
  - reflexivity.
  - discriminate.
  - discriminate.
  - lia.
  - exists st', tr. repeat split; assumption.
Defined.

(** X8: the configuration of the scenario is valid. *)
Lemma check_config_result_witness :
  RemoteWorker_check_config (configured remote_config)
  = Ret true (configured remote_config).
Proof.
  exact (check_config_result (configured remote_config)
           [("directory", VStr "/work/proj");
            ("network", VDict [("address", VStr "10.0.0.5");
                               ("port", VInt 19360);
                               ("mode", VStr "nat")]);
            ("machine", VStr "default")]
           [("address", VStr "10.0.0.5"); ("port", VInt 19360);
            ("mode", VStr "nat")]
           eq_refl eq_refl).
Defined.

(** X9: no [network], and a [network] that is [None]. *)
Lemma check_config_network_raises_witness :
  RemoteWorker_check_config (configured remote_config_no_network)
  = Exc KeyError (configured remote_config_no_network) /\
  RemoteWorker_check_config
    (configured (VDict [("directory", VStr "/work/proj"); ("network", VNone)]))
  = Exc AttributeError
      (configured (VDict [("directory", VStr "/work/proj");
                          ("network", VNone)])).
Proof.
  split.
  - apply (proj1 (check_config_network_raises
                    (configured remote_config_no_network)
                    [("directory", VStr "/work/proj")] eq_refl)).
    reflexivity.
  - apply (proj2 (check_config_network_raises
                    (configured (VDict [("directory", VStr "/work/proj");
                                        ("network", VNone)]))
                    [("directory", VStr "/work/proj"); ("network", VNone)]
                    eq_refl) VNone).
    + reflexivity.
    + discriminate.
Defined.

(** X10: the port of the scenario. *)
Lemma port_of_checked_config_witness :
  exists d nd v,
    config (self (configured remote_config)) = VDict d /\
    assoc "network" d = Some (VDict nd) /\
    assoc "port" nd = Some v /\
    v <> VNone /\
    RemoteWorker_port (configured remote_config)
    = Ret v (configured remote_config).
Proof.
  apply (port_of_checked_config (configured remote_config)
           (configured remote_config)).
  reflexivity.
Defined.

(** X11: the remote worker marked unsupported, and with its directory
    missing. *)
Lemma RemoteWorker_start_gated_witness :
  count is_connect
    (trace (final (RemoteWorker_start local_env 5
                     {| self := set_support (Some false) (self remote_worker);
                        trace := [] |}))) = 0%nat /\
  RemoteWorker_start (with_fs_exists false local_env) 5 remote_worker
  = Ret tt {| self := self remote_worker;
              trace := EErrorMessage :: trace remote_worker |}.
Proof.
  split.
  - rewrite (proj1 (RemoteWorker_start_gated local_env 5
                     {| self := set_support (Some false) (self remote_worker);
                        trace := [] |}));
      reflexivity.
  - apply (proj2 (RemoteWorker_start_gated (with_fs_exists false local_env) 5
                    remote_worker) "/work/proj"); reflexivity.
Defined.

(** X12: the remote worker when the endpoint answers at the fifth probe. *)
Lemma RemoteWorker_start_binds_witness :
  exists st',
    RemoteWorker_start local_env 5 remote_worker = Ret tt st' /\
    w_client (self st') = Some (Client 0 (VInt 19360)) /\
    count is_connect (trace st') = 5%nat.
Proof.
  eexists. split.
  - apply (RemoteWorker_start_binds local_env 5 4 remote_worker "/work/proj").
    + reflexivity.
    + reflexivity.
    + reflexivity.
    + intros i Hi. destruct i as [|[|[|[|i]]]]; [reflexivity..|lia].
    + reflexivity.
    + lia.
  - split; reflexivity.
Defined.

(** X14: the remote configuration of the scenario with a status check that
    reports success. *)
Lemma Worker_execute_remote_never_registers_witness :
  WORKERS
    (final (Worker_execute (with_status 0 status_success local_env) 9 7
              remote_config "lint" lint_data empty_registry)) = ∅.
Proof.
  apply (proj1 (Worker_execute_remote_never_registers
                  (with_status 0 status_success local_env) 9 7 remote_config
                  "lint" lint_data empty_registry eq_refl eq_refl)).
Defined.

(** X15: a second call for window 7 and a call for window 8 leave the
    worker of window 7 in place. *)
Lemma Worker_execute_registry_frame_witness :
  (exists w',
     WORKERS
       (final (Worker_execute local_env 5 7 VNone "lint" lint_data registered))
     !! 7 = Some w' /\ kind w' = LocalWorker) /\
  WORKERS
    (final (Worker_execute local_env 5 8 VNone "lint" lint_data registered))
  !! 7 = WORKERS registered !! 7.
Proof.
  split.
  - destruct (proj2 (Worker_execute_registry_frame local_env 5 7 VNone "lint"
                       lint_data registered)
                (self started_worker)) as (w' & Hw & Hk).
    + vm_compute. reflexivity.
    + exists w'. split; [exact Hw|exact Hk].
  - apply (proj1 (Worker_execute_registry_frame local_env 5 8 VNone "lint"
                    lint_data registered)).
    discriminate.
Defined.

(** X16: the settings ["lib,vendor/lib"] and ["~/venv/bin/python"], with
    [/root] as the home directory. *)
Lemma build_server_string_paths_witness :
  trace (final (LocalWorker_build_server
                  (with_python (Some "~/venv/bin/python")
                     (with_paths (PathsStr "lib,vendor/lib") [] local_env))
                  started_worker))
  = ESpawn ["/root/venv/bin/python"; "-B"; "anaconda_server/jsonserver.py";
            "-p"; "proj"; "54321"; "-e"; "lib,vendor/lib"; "4242"]
    :: EErrorMessage :: trace started_worker.
Proof.
  apply (build_server_string_paths
           (with_python (Some "~/venv/bin/python")
              (with_paths (PathsStr "lib,vendor/lib") [] local_env))
           started_worker "lib,vendor/lib"); reflexivity.
Defined.
